(** * collex: OpenTelemetry Collector exporters behind the OpenTelemetry-Go
    span-exporter contract

    A shallow embedding of the package [collex] ([trace.go], the factory
    file) and of the ClickHouse demo's exporters ([internal/examples.go],
    [cmd/main.go]), with the properties of the adapter, of the factory and
    of the span translation.

    Go values are modelled as follows.
    - An interface or pointer value that the code tests against [nil] is an
      [option]: [None] is [nil].
    - Code outside the repository (zap, otel, the Collector exporter behind
      the factory) is a function on an opaque state [Ext]; every call into
      it and every write to standard output is appended to the world's
      [trace], so that what a function did is observable.
    - The settings the caller hands to [NewFactory] live behind a pointer,
      so they are kept in a store ([heap]) that the caller can update. *)

From stdpp Require Import base option list strings gmap pretty.

(** ** Span data (section 3 of the specification) *)

(** Modelled from the spec: the span types of the SDK and of the
    Collector belong to libraries outside the sources; section 3 lists
    what they hold. Attribute values: string, bool, integer, floating
    point (its binary64 bit pattern) and homogeneous arrays of them. *)
Inductive Value : Type :=
| StringValue (s : string)
| BoolValue (b : bool)
| IntValue (i : Z)
| FloatValue (bits : Z)
| StringSlice (l : list string)
| BoolSlice (l : list bool)
| IntSlice (l : list Z)
| FloatSlice (l : list Z).

Definition KeyValue : Type := string * Value.

(** Process-level attributes of the entity that produced a span. *)
Record Resource : Type := mkResource { resource_attrs : list KeyValue }.

(** Instrumentation-scope identity. *)
Record Scope : Type := mkScope { scope_name : string; scope_version : string }.

Record Status : Type := mkStatus { status_code : Z; status_message : string }.

Record SpanEvent : Type := mkSpanEvent {
  event_name : string;
  event_time : Z;
  event_attrs : list KeyValue
}.

Record Link : Type := mkLink {
  link_trace_id : list Byte.byte;
  link_span_id : list Byte.byte;
  link_attrs : list KeyValue
}.

(** Modelled from the spec: a completed span as the SDK hands it to an
    exporter (section 3). Identifiers are byte strings, timestamps are
    nanoseconds. *)
Record Span : Type := mkSpan {
  span_trace_id : list Byte.byte;
  span_id : list Byte.byte;
  span_parent_id : list Byte.byte;
  span_name : string;
  span_kind : Z;
  span_start : Z;
  span_end : Z;
  span_status : Status;
  span_attrs : list KeyValue;
  span_events : list SpanEvent;
  span_links : list Link;
  span_dropped_attrs : Z;
  span_dropped_events : Z;
  span_dropped_links : Z;
  span_resource : Resource;
  span_scope : Scope
}.

(** One export cycle's batch: [[]sdktrace.ReadOnlySpan]. *)
Abbreviation SpanBatch := (list Span) (only parsing).

(** Modelled from the spec: the Collector side of section 3,
    Resource -> ScopeSpans -> Span. *)
Record ScopeSpans : Type := mkScopeSpans {
  ss_scope : Scope;
  ss_spans : list Span
}.

Record ResourceSpans : Type := mkResourceSpans {
  rs_resource : Resource;
  rs_scopes : list ScopeSpans
}.

Abbreviation TraceRecord := (list ResourceSpans) (only parsing).

#[global] Instance Value_eq_dec : EqDecision Value.
Proof. solve_decision. Defined.

#[global] Instance Resource_eq_dec : EqDecision Resource.
Proof. solve_decision. Defined.

#[global] Instance Scope_eq_dec : EqDecision Scope.
Proof. solve_decision. Defined.

(** ** Span translator (section 4.1 of the specification) *)

(** Modelled from the spec: the translation of a span batch
    ([transmute.Spans] in the demo's comments) is not part of the sources;
    section 4.1 gives its grouping rule. A span is put in the scope group
    of its instrumentation scope, compared by value; a scope not seen yet
    opens a new group at the end. *)
Fixpoint place_scope (sp : Span) (gs : list ScopeSpans) : list ScopeSpans :=
  match gs with
  | [] => [mkScopeSpans (span_scope sp) [sp]]
  | g :: gs' =>
      if decide (ss_scope g = span_scope sp)
      then mkScopeSpans (ss_scope g) (ss_spans g ++ [sp]) :: gs'
      else g :: place_scope sp gs'
  end.

(** Modelled from the spec: the same one level up. A span is put in the
    group of its Resource, compared by value, and there in its scope
    group; a Resource not seen yet opens a new group at the end. *)
Fixpoint place_resource (sp : Span) (rs : TraceRecord) : TraceRecord :=
  match rs with
  | [] => [mkResourceSpans (span_resource sp) (place_scope sp [])]
  | r :: rs' =>
      if decide (rs_resource r = span_resource sp)
      then mkResourceSpans (rs_resource r) (place_scope sp (rs_scopes r)) :: rs'
      else r :: place_resource sp rs'
  end.

(** Modelled from the spec: [translate(batch SpanBatch) -> TraceRecord] of
    section 4.1, the translation that is missing from the sources. The
    spans are placed one after the other in batch order; a span itself is
    carried over unchanged. *)
Definition translate (batch : SpanBatch) : TraceRecord :=
  foldl (fun acc sp => place_resource sp acc) [] batch.

(** The keys of a list in the order of their first occurrence. *)
Fixpoint first_occurrences {K : Type} `{EqDecision K} (l : list K) : list K :=
  match l with
  | [] => []
  | x :: l' => x :: filter (fun y => y <> x) (first_occurrences l')
  end.

(** How many distinct values a list holds. *)
Definition distinct {K : Type} `{EqDecision K} (l : list K) : nat :=
  length (remove_dups l).

(** The spans of a batch that belong to a Resource, and to a scope under
    it, in batch order. *)
Definition spans_of_resource (r : Resource) (batch : SpanBatch) : list Span :=
  filter (fun sp => span_resource sp = r) batch.

Definition spans_of_scope (r : Resource) (s : Scope) (batch : SpanBatch) : list Span :=
  filter (fun sp => span_scope sp = s) (spans_of_resource r batch).

(** Modelled from the spec: the grouping rule of section 4.1 as a
    relation between a batch and a record, whichever way the record was
    built. One Resource group per distinct Resource, in first-occurrence
    order; under each, one scope group per distinct scope of that
    Resource's spans, in first-occurrence order; in each scope group the
    spans of that Resource and scope, in batch order. *)
Definition Grouping (batch : SpanBatch) (rec : TraceRecord) : Prop :=
  rs_resource <$> rec = first_occurrences (span_resource <$> batch) /\
  (forall g, g ∈ rec ->
     ss_scope <$> rs_scopes g
     = first_occurrences (span_scope <$> spans_of_resource (rs_resource g) batch)) /\
  (forall g sg, g ∈ rec -> sg ∈ rs_scopes g ->
     ss_spans sg = spans_of_scope (rs_resource g) (ss_scope sg) batch).

(** Number of spans held by a record. *)
Definition scope_span_count (gs : list ScopeSpans) : nat :=
  sum_list_with (fun g => length (ss_spans g)) gs.

Definition span_count (rec : TraceRecord) : nat :=
  sum_list_with (fun r => scope_span_count (rs_scopes r)) rec.

(** ** Code outside the repository *)

(** The types and functions of the libraries the code calls. [Ext] is the
    state those libraries keep (loggers, connections, the exporter behind
    the factory); the repository's code never looks inside it. *)
Class Externals : Type := {
  (** [context.Context] *)
  context_Context : Type;
  (** the values of [*zap.Logger] *)
  zap_Logger : Type;
  (** the values of [trace.TracerProvider] *)
  trace_TracerProvider : Type;
  (** the values of [config.Exporter] other than [nil] *)
  config_Exporter : Type;
  (** the values of [error] other than [nil] *)
  error_value : Type;
  (** the state of the libraries *)
  Ext : Type;
  (** [zap.NewProduction()] *)
  zap_NewProduction : Ext -> (zap_Logger * option error_value) * Ext;
  (** [otel.GetTracerProvider()] *)
  otel_GetTracerProvider : Ext -> trace_TracerProvider * Ext
}.

(** A pointer to a settings struct. *)
Abbreviation loc := positive (only parsing).

Definition newline : string := String (Ascii.ascii_of_nat 10) EmptyString.

Module component.
Section component.
Context {E : Externals}.

(** Go's [error]: [None] is [nil]. *)
Definition error : Type := option error_value.

Record BuildInfo : Type := mkBuildInfo {
  Command : string;
  Description : string;
  Version : string
}.

Record TelemetrySettings : Type := mkTelemetrySettings {
  Logger : zap_Logger;
  TracerProvider : trace_TracerProvider
}.

(** [component.ExporterCreateSettings], with the fields [NewFactory]
    fills in. *)
Record ExporterCreateSettings : Type := mkExporterCreateSettings {
  TelemetrySettings_ : TelemetrySettings;
  BuildInfo_ : BuildInfo
}.

(** The interface [consumer.Traces]: the ingest operation. *)
Record Traces : Type := mkTraces {
  ConsumeTraces : context_Context -> TraceRecord -> Ext -> error * Ext
}.

(** The interface [component.TracesExporter]: a [consumer.Traces] that
    is also a component, which can be shut down. *)
Record TracesExporter : Type := mkTracesExporter {
  consumer : Traces;
  Shutdown : context_Context -> Ext -> error * Ext
}.

(** The interface [component.ExporterFactory], given by an
    implementation of its methods. A nil interface value has none and
    is not modelled: calling a method on it panics. *)
Record ExporterFactory : Type := mkExporterFactory {
  CreateDefaultConfig : Ext -> option config_Exporter * Ext;
  CreateTracesExporter :
    context_Context -> ExporterCreateSettings -> option config_Exporter ->
    Ext -> (option TracesExporter * error) * Ext
}.
End component.
End component.

(** ** Effects *)

Section effects.
Context {E : Externals}.

(** What the repository's code does to the outside: calls into the
    libraries, with their arguments, and lines written to standard
    output. *)
Inductive Call : Type :=
| call_zap_NewProduction
| call_otel_GetTracerProvider
| call_CreateDefaultConfig
| call_CreateTracesExporter (ctx : context_Context)
    (set : component.ExporterCreateSettings) (cfg : option config_Exporter)
| call_ConsumeTraces (ctx : context_Context) (td : TraceRecord)
| call_Shutdown (ctx : context_Context)
| write_stdout (s : string).

Record World : Type := mkWorld {
  heap : gmap loc component.ExporterCreateSettings;
  ext : Ext;
  trace : list Call
}.

(** The outcome of running code: a value and the world after it, or a
    run-time panic. *)
Inductive Res (A : Type) : Type :=
| Ok (a : A) (w : World)
| Panic.

Definition M (A : Type) : Type := World -> Res A.

Definition ret {A : Type} (a : A) : M A := fun w => Ok A a w.

Definition bind {A B : Type} (m : M A) (k : A -> M B) : M B :=
  fun w => match m w with
           | Ok _ a w' => k a w'
           | Panic _ => Panic B
           end.

(** A call into a library: it runs on the library's state and is
    recorded. *)
Definition extern {A : Type} (c : Call) (f : Ext -> A * Ext) : M A :=
  fun w => let '(a, x) := f (ext w) in
           Ok A a (mkWorld (heap w) x (trace w ++ [c])).

(** [*p] *)
Definition deref (p : loc) : M component.ExporterCreateSettings :=
  fun w => match heap w !! p with
           | Some s => Ok _ s w
           | None => Panic _
           end.

(** [*p = s] *)
Definition assign (p : loc) (s : component.ExporterCreateSettings) : M unit :=
  fun w => match heap w !! p with
           | Some _ => Ok _ tt (mkWorld (<[p := s]> (heap w)) (ext w) (trace w))
           | None => Panic _
           end.

(** [fmt.Printf] and [fmt.Println], with the text already formatted. *)
Definition fmt_Print (s : string) : M unit :=
  fun w => Ok _ tt (mkWorld (heap w) (ext w) (trace w ++ [write_stdout s])).

(** A nil-pointer dereference. *)
Definition panic {A : Type} : M A := fun _ => Panic A.
End effects.

Arguments Ok {_ _} a w.
Arguments Panic {_ _}.

#[global] Instance M_ret {E : Externals} : MRet M := @ret E.
#[global] Instance M_bind {E : Externals} : MBind M := fun A B k m => bind m k.

(** The calls a run added to the trace. *)
Definition added {E : Externals} (before after : World) : list Call :=
  drop (length (trace before)) (trace after).

(** ** Package collex *)

Module collex.
Section collex.
Context {E : Externals}.

(** Modelled from the spec: the struct [spanExporter] that
    [Factory.SpanExporter] builds is declared outside the sources; it
    holds the Collector exporter it wraps (section 4.2). *)
Record spanExporter : Type := mkSpanExporter {
  cexp : option component.TracesExporter
}.

(** A value of the interface [trace.SpanExporter] as this package builds
    it: [nil] or a [*spanExporter]. *)
Definition trace_SpanExporter : Type := option spanExporter.

(** [trace.go]: [TracesExporter] returns [nil] for every exporter it is
    given. *)
Definition TracesExporter (e : option component.TracesExporter) : trace_SpanExporter :=
  None.

(** [Factory] wraps a Collector [ExporterFactory] together with the
    settings new exporters are created with. *)
Record Factory : Type := mkFactory {
  createCfg : component.ExporterCreateSettings;
  collFactory : component.ExporterFactory
}.

(** The settings [NewFactory] builds when it is given none. *)
Definition default_settings (logger : zap_Logger) (tp : trace_TracerProvider)
  : component.ExporterCreateSettings :=
  component.mkExporterCreateSettings
    (component.mkTelemetrySettings logger tp)
    (component.mkBuildInfo
       "collex"
       "OpenTelemetry Collector to OpenTelemetry Go translator"
       "latest").

(** [NewFactory(f, set)]. With [set == nil] a production logger is
    built, and its failure is returned; otherwise the settings behind
    [set] are read. The factory holds the settings by value. *)
Definition NewFactory (f : component.ExporterFactory) (set : option loc)
  : M (option Factory * component.error) :=
  match set with
  | None =>
      '(logger, err) ← extern call_zap_NewProduction zap_NewProduction;
      match err with
      | Some e => mret (None, Some e)
      | None =>
          tp ← extern call_otel_GetTracerProvider otel_GetTracerProvider;
          mret (Some (mkFactory (default_settings logger tp) f), None)
      end
  | Some p =>
      s ← deref p;
      mret (Some (mkFactory s f), None)
  end.

(** [(f *Factory) SpanExporter(ctx, cfg)]. *)
Definition Factory_SpanExporter (f : option Factory) (ctx : context_Context)
    (cfg : option config_Exporter)
  : M (trace_SpanExporter * component.error) :=
  match f with
  | None => panic
  | Some f =>
      cfg ← match cfg with
            | None => extern call_CreateDefaultConfig
                        (component.CreateDefaultConfig (collFactory f))
            | Some c => mret (Some c)
            end;
      '(collExp, err) ← extern (call_CreateTracesExporter ctx (createCfg f) cfg)
                          (component.CreateTracesExporter (collFactory f) ctx (createCfg f) cfg);
      match err with
      | Some e => mret (None, Some e)
      | None => mret (Some (mkSpanExporter collExp), None)
      end
  end.

(** Construction of an adapter as the demo's comments write it
    ([newAdapter] of section 4.2): [NewFactory], and unless it failed,
    [SpanExporter] on the factory it returned. *)
Definition newAdapter (f : component.ExporterFactory) (set : option loc)
    (ctx : context_Context) (cfg : option config_Exporter)
  : M (trace_SpanExporter * component.error) :=
  '(fac, err) ← NewFactory f set;
  match err with
  | Some e => mret (None, Some e)
  | None => Factory_SpanExporter fac ctx cfg
  end.

End collex.
End collex.

(** ** The ClickHouse demo, package internal *)

Module clickhouseexporter.
(** [clickhouseexporter.Config], with the fields the demo sets. [TTL] is
    in nanoseconds. *)
Record Config : Type := mkConfig {
  Endpoint : string;
  Username : string;
  Password : string;
  Database : string;
  TracesTableName : string;
  CreateSchema : bool;
  TTL : Z
}.
End clickhouseexporter.

Module internal.
Section internal.
Context {E : Externals}.

(** [simulatedExporter] stands in for an exporter built by collex. *)
Record simulatedExporter : Type := mkSimulatedExporter {
  config : option clickhouseexporter.Config
}.

Definition simulatedExporter_ExportSpans (e : simulatedExporter)
    (ctx : context_Context) (spans : SpanBatch) : M component.error :=
  match config e with
  | None => panic
  | Some c =>
      fmt_Print ("Exporting " +:+ pretty (length spans)
                 +:+ " spans to ClickHouse at "
                 +:+ clickhouseexporter.Endpoint c +:+ newline);;
      mret None
  end.

Definition simulatedExporter_Shutdown (e : simulatedExporter)
    (ctx : context_Context) : M component.error :=
  fmt_Print ("Shutting down ClickHouse exporter" +:+ newline);;
  mret None.

(** [spanExporterAdapter] adapts the collector exporter to the SDK. *)
Record spanExporterAdapter : Type := mkSpanExporterAdapter {
  cexp : option component.Traces
}.

(** [ExportSpans] of the adapter: it logs how many spans it was given
    and returns [nil]; the wrapped consumer is not used. *)
Definition spanExporterAdapter_ExportSpans (e : spanExporterAdapter)
    (ctx : context_Context) (spans : SpanBatch) : M component.error :=
  fmt_Print ("Exporting " +:+ pretty (length spans)
             +:+ " spans to ClickHouse" +:+ newline);;
  mret None.

(** [Shutdown] of the adapter returns [nil]. *)
Definition spanExporterAdapter_Shutdown (e : spanExporterAdapter)
    (ctx : context_Context) : M component.error :=
  mret None.

End internal.
End internal.

(** ** The ClickHouse demo, package main *)

Module main.
Section main.
Context {E : Externals}.

(** [cmd/main.go] declares the simulated exporter again, with the same
    methods. *)
Record simulatedExporter : Type := mkSimulatedExporter {
  config : option clickhouseexporter.Config
}.

Definition simulatedExporter_ExportSpans (e : simulatedExporter)
    (ctx : context_Context) (spans : SpanBatch) : M component.error :=
  match config e with
  | None => panic
  | Some c =>
      fmt_Print ("Exporting " +:+ pretty (length spans)
                 +:+ " spans to ClickHouse at "
                 +:+ clickhouseexporter.Endpoint c +:+ newline);;
      mret None
  end.

Definition simulatedExporter_Shutdown (e : simulatedExporter)
    (ctx : context_Context) : M component.error :=
  fmt_Print ("Shutting down ClickHouse exporter" +:+ newline);;
  mret None.

End main.
End main.

(** ** The demo's implementations of the SDK's span-exporter contract *)

Section span_exporters.
Context {E : Externals}.

(** A value handed to [sdktrace.WithBatcher]: one of the demo's three
    exporter types behind the interface [sdktrace.SpanExporter]. *)
Inductive demo_SpanExporter : Type :=
| adapter_exporter (e : internal.spanExporterAdapter)
| internal_simulated (e : internal.simulatedExporter)
| main_simulated (e : main.simulatedExporter).

(** Method calls through the interface. *)
Definition ExportSpans (e : demo_SpanExporter) (ctx : context_Context)
    (spans : SpanBatch) : M component.error :=
  match e with
  | adapter_exporter a => internal.spanExporterAdapter_ExportSpans a ctx spans
  | internal_simulated s => internal.simulatedExporter_ExportSpans s ctx spans
  | main_simulated s => main.simulatedExporter_ExportSpans s ctx spans
  end.

Definition Shutdown (e : demo_SpanExporter) (ctx : context_Context)
  : M component.error :=
  match e with
  | adapter_exporter a => internal.spanExporterAdapter_Shutdown a ctx
  | internal_simulated s => internal.simulatedExporter_Shutdown s ctx
  | main_simulated s => main.simulatedExporter_Shutdown s ctx
  end.

(** Whether a stretch of the trace holds a call of the wrapped
    consumer's ingest operation, or of a component's shutdown. *)
Definition is_ConsumeTraces (c : Call) : bool :=
  match c with call_ConsumeTraces _ _ => true | _ => false end.

Definition is_Shutdown (c : Call) : bool :=
  match c with call_Shutdown _ => true | _ => false end.

(** The settings and the configurations a stretch of the trace shows
    being passed to [CreateTracesExporter]. *)
Definition settings_passed (t : list Call) : list component.ExporterCreateSettings :=
  omap (fun c => match c with
                 | call_CreateTracesExporter _ set _ => Some set
                 | _ => None
                 end) t.


(** The configuration [SpanExporter] works with: the one it was given,
    or the factory's default. *)
Definition effective_config (f : collex.Factory) (cfg : option config_Exporter)
    (x : Ext) : option config_Exporter * Ext :=
  match cfg with
  | Some c => (Some c, x)
  | None => component.CreateDefaultConfig (collex.collFactory f) x
  end.

Definition config_calls (cfg : option config_Exporter) : list Call :=
  match cfg with
  | Some _ => []
  | None => [call_CreateDefaultConfig]
  end.

(** *** The adapter's contract in the words of the specification *)

(** Section 4.2, [export]: the batch is translated, the record is handed
    to the wrapped consumer's ingest operation, and when that succeeds
    the export succeeds. *)
Definition export_forwards (e : internal.spanExporterAdapter)
    (ctx : context_Context) (spans : list Span) (w : World) : Prop :=
  exists r w' ctx' td,
    internal.spanExporterAdapter_ExportSpans e ctx spans w = Ok r w' /\
    call_ConsumeTraces ctx' td ∈ added w w' /\
    (forall c, internal.cexp e = Some c ->
               (component.ConsumeTraces c ctx' td (ext w)).1 = None -> r = None).

(** Section 8, error passthrough: what [export] returns is what the
    wrapped consumer's ingest returns for the record it is handed. *)
Definition export_passes_error (e : internal.spanExporterAdapter)
    (ctx : context_Context) (spans : list Span) (w : World) : Prop :=
  forall c,
    internal.cexp e = Some c ->
    exists ctx' td w',
      internal.spanExporterAdapter_ExportSpans e ctx spans w
      = Ok (component.ConsumeTraces c ctx' td (ext w)).1 w'.

(** Section 8, closed-state rejection: once shutdown has succeeded,
    [export] fails and does not reach the wrapped consumer. *)
Definition export_rejected_after_shutdown (e : internal.spanExporterAdapter)
    (ctx : context_Context) (spans : list Span) (w : World) : Prop :=
  forall w1,
    internal.spanExporterAdapter_Shutdown e ctx w = Ok None w1 ->
    exists closed w2,
      internal.spanExporterAdapter_ExportSpans e ctx spans w1 = Ok (Some closed) w2 /\
      Forall (fun c => is_ConsumeTraces c = false) (added w1 w2).

(** Section 4.2, construction: it fails only when building the
    underlying consumer fails, with that error. *)
Definition construction_fails_only_with_consumer (f : component.ExporterFactory)
    (set : option loc) (ctx : context_Context) (cfg : option config_Exporter)
    (w : World) : Prop :=
  forall exp e w',
    collex.newAdapter f set ctx cfg w = Ok (exp, Some e) w' ->
    exp = None /\
    exists s c x,
      call_CreateTracesExporter ctx s c ∈ added w w' /\
      (component.CreateTracesExporter f ctx s c x).1.2 = Some e.

End span_exporters.

(** ** Test doubles *)

(** An environment for examples. Contexts are numbered; the libraries'
    state counts the calls they served; [zap.NewProduction] fails when
    [zap_fails] is set. *)
Definition test_env (zap_fails : bool) : Externals := {|
  context_Context := nat;
  zap_Logger := option string;
  trace_TracerProvider := string;
  config_Exporter := string;
  error_value := string;
  Ext := nat;
  zap_NewProduction := fun x =>
    if zap_fails
    then ((None, Some "zap: no logger"), S x)
    else ((Some "production", None), S x);
  otel_GetTracerProvider := fun x => ("global", S x)
|}.

Section doubles.
Variable zap_fails : bool.
Let E : Externals := test_env zap_fails.
#[local] Existing Instance E.

(** A consumer whose ingest always fails, and one whose ingest always
    succeeds. *)
Definition failing_consumer : component.Traces :=
  component.mkTraces (fun _ _ x => (Some "clickhouse: connection refused", S x)).

Definition accepting_consumer : component.Traces :=
  component.mkTraces (fun _ _ x => (None, S x)).

Definition accepting_exporter : component.TracesExporter :=
  component.mkTracesExporter accepting_consumer (fun _ x => (None, S x)).

(** A factory that refuses every configuration but its own default. *)
Definition picky_factory : component.ExporterFactory :=
  component.mkExporterFactory
    (fun x => (Some "default", S x))
    (fun _ _ cfg x =>
       if decide (cfg = Some "default")
       then ((Some accepting_exporter, None), S x)
       else ((None, Some "invalid configuration"), S x)).

Definition caller_settings : component.ExporterCreateSettings :=
  component.mkExporterCreateSettings
    (component.mkTelemetrySettings (Some "caller") "caller")
    (component.mkBuildInfo "demo" "ClickHouse exporter demo" "1.0").

Definition other_settings : component.ExporterCreateSettings :=
  component.mkExporterCreateSettings
    (component.mkTelemetrySettings None "other")
    (component.mkBuildInfo "changed" "changed" "2.0").

(** A world where nothing has happened yet, and one where the caller
    holds settings behind the pointer [1]. *)
Definition empty_world : World := mkWorld ∅ 0 [].

Definition caller_world : World := mkWorld {[ 1%positive := caller_settings ]} 0 [].

Definition failing_adapter : internal.spanExporterAdapter :=
  internal.mkSpanExporterAdapter (Some failing_consumer).

End doubles.

(** The batch of the specification's example scenario: two spans under
    Resource A and scope X, then one under Resource B and scope Y. *)
Definition resource_A : Resource :=
  mkResource [("service.name", StringValue "a")].

Definition resource_B : Resource :=
  mkResource [("service.name", StringValue "b")].

Definition scope_X : Scope := mkScope "x" "1.0".

Definition scope_Y : Scope := mkScope "y" "1.0".

Definition span_under (r : Resource) (s : Scope) (name : string) : Span :=
  mkSpan [] [] [] name 0 0 0 (mkStatus 0 EmptyString) [] [] [] 0 0 0 r s.

Definition example_batch : SpanBatch :=
  [span_under resource_A scope_X "first";
   span_under resource_A scope_X "second";
   span_under resource_B scope_Y "third"].

(** The record section 8 expects for it: two Resource groups, A before
    B; A holds one scope group of two spans, B one scope group of one
    span. *)
Definition example_record : TraceRecord :=
  [mkResourceSpans resource_A
     [mkScopeSpans scope_X
        [span_under resource_A scope_X "first";
         span_under resource_A scope_X "second"]];
   mkResourceSpans resource_B
     [mkScopeSpans scope_Y [span_under resource_B scope_Y "third"]]].

(** ** The exporters and the factory in use *)

Section driving.
Context {E : Externals}.

(** A call the SDK makes on a registered exporter. *)
Inductive exporter_call : Type :=
| do_ExportSpans (ctx : context_Context) (spans : list Span)
| do_Shutdown (ctx : context_Context).

Definition run_call (e : demo_SpanExporter) (c : exporter_call) : M component.error :=
  match c with
  | do_ExportSpans ctx spans => ExportSpans e ctx spans
  | do_Shutdown ctx => Shutdown e ctx
  end.

(** The calls of a session, one after the other, with what each
    returned. *)
Fixpoint run_calls (e : demo_SpanExporter) (cs : list exporter_call)
  : M (list component.error) :=
  match cs with
  | [] => mret []
  | c :: cs' =>
      r ← run_call e c;
      rs ← run_calls e cs';
      mret (r :: rs)
  end.

(** An exporter whose methods can be called: the simulated exporters
    read their configuration through a pointer, which must not be nil. *)
Definition has_config (e : demo_SpanExporter) : Prop :=
  match e with
  | adapter_exporter _ => True
  | internal_simulated s => internal.config s <> None
  | main_simulated s => main.config s <> None
  end.

Definition is_stdout (c : Call) : bool :=
  match c with write_stdout _ => true | _ => false end.

(** The sizes of the batches a session exports, in call order. *)
Definition exported_sizes (cs : list exporter_call) : list nat :=
  omap (fun c => match c with
                 | do_ExportSpans _ spans => Some (length spans)
                 | do_Shutdown _ => None
                 end) cs.


End driving.

(** ** The demo's command line *)

Module cli.
Section cli.
Context {E : Externals}.

(** The two examples of package internal, which [main] only calls. Each
    yields the exit status if it ends the process ([log.Fatalf]), or
    [None] when it returns. *)
Variables SimulatedClickHouseExample RealClickHouseExample : M (option Z).

(** [main] of the demo's command, after [flag.Parse]: [example] and
    [help] are the values of the two flags. The result is the status
    passed to [os.Exit], or what the example run yields. *)
Definition main (example : string) (help : bool) : M (option Z) :=
  if help then
    fmt_Print ("ClickHouse Exporter Demo for collex" +:+ newline);;
    fmt_Print (newline +:+ "Options:" +:+ newline);;
    fmt_Print ("  -example=sim  Run the simulation example (default)" +:+ newline);;
    fmt_Print ("  -example=real Run the real implementation example" +:+ newline);;
    fmt_Print ("  -help         Show this help message" +:+ newline);;
    mret (Some 0%Z)
  else if decide (example = "sim") then
    fmt_Print ("Running simulated example..." +:+ newline);;
    SimulatedClickHouseExample
  else if decide (example = "real") then
    fmt_Print ("Running real implementation example..." +:+ newline);;
    RealClickHouseExample
  else
    fmt_Print ("Unknown example: " +:+ example +:+ newline);;
    fmt_Print ("Use -help for usage information" +:+ newline);;
    mret (Some 1%Z).

End cli.
End cli.

(** More test doubles: a factory that reports success without an
    exporter, and an example run that must not happen. *)
Definition careless_factory : @component.ExporterFactory (test_env false) :=
  component.mkExporterFactory (E := test_env false)
    (fun x => (None, S x))
    (fun _ _ _ x => ((None, None), S x)).

Definition unwanted_run : @M (test_env false) (option Z) :=
  fun _ => Panic.

Definition simulated_at (endpoint : string) : clickhouseexporter.Config :=
  clickhouseexporter.mkConfig endpoint "default" "password" "otel" "otel_traces"
    true 259200000000000.

(** * Properties *)

(** ** The span translation *)

Section first_occurrences.
Context {K : Type} `{EqDecision K}.
Implicit Types (l : list K) (x y : K).

Lemma elem_of_first_occurrences l y : y ∈ first_occurrences l <-> y ∈ l.
Proof.
  induction l as [|x l IH]; simpl; [done|].
  rewrite !elem_of_cons, list_elem_of_filter, IH.
  destruct (decide (y = x)); tauto.
Qed.

Lemma NoDup_first_occurrences l : NoDup (first_occurrences l).
Proof.
  induction l as [|x l IH]; simpl; [constructor|].
  apply NoDup_cons. split.
  - rewrite list_elem_of_filter. by intros [Hne _].
  - by apply NoDup_filter.
Qed.

(** A key that comes last is new exactly when it has not occurred. *)
Lemma first_occurrences_snoc l x :
  first_occurrences (l ++ [x])
  = if decide (x ∈ l) then first_occurrences l else first_occurrences l ++ [x].
Proof.
  induction l as [|a l IH].
  - destruct (decide (_ ∈ [])) as [Hin|_]; [by apply elem_of_nil in Hin|done].
  - cbn [app first_occurrences]. rewrite IH.
    destruct (decide (x = a)) as [->|Hne].
    + rewrite (decide_True (P := a ∈ a :: l)) by apply list_elem_of_here.
      destruct (decide (a ∈ l)); [done|].
      rewrite filter_app, (filter_singleton_False _ a []) by (intros Hne; by apply Hne).
      by rewrite app_nil_r.
    + destruct (decide (x ∈ l)) as [Hin|Hnin].
      * by rewrite (decide_True (P := x ∈ a :: l)) by (by apply list_elem_of_further).
      * rewrite (decide_False (P := x ∈ a :: l))
          by (rewrite elem_of_cons; intros [?|?]; done).
        by rewrite filter_app, (filter_singleton_True _ x []).
Qed.

Lemma length_first_occurrences l : length (first_occurrences l) = distinct l.
Proof.
  unfold distinct. apply Permutation_length, NoDup_Permutation.
  - apply NoDup_first_occurrences.
  - apply NoDup_remove_dups.
  - intros y. by rewrite elem_of_first_occurrences, elem_of_remove_dups.
Qed.

End first_occurrences.

(** Two lists of groups with the same keys, whose groups agree whenever
    their keys do, are the same list. *)
Lemma list_eq_by_key {G K : Type} (key : G -> K) (l1 l2 : list G) :
  key <$> l1 = key <$> l2 ->
  (forall g1 g2, g1 ∈ l1 -> g2 ∈ l2 -> key g1 = key g2 -> g1 = g2) ->
  l1 = l2.
Proof.
  revert l2. induction l1 as [|g1 l1 IH]; intros [|g2 l2]; simpl; try done.
  intros [= Hk Hks] Hagree. f_equal.
  - apply Hagree; [apply list_elem_of_here..|done].
  - apply IH; [done|]. intros a b Ha Hb. apply Hagree; by apply list_elem_of_further.
Qed.

(** *** Placing one span *)

Lemma place_scope_keys (sp : Span) (gs : list ScopeSpans) :
  ss_scope <$> place_scope sp gs
  = if decide (span_scope sp ∈ ss_scope <$> gs)
    then ss_scope <$> gs
    else (ss_scope <$> gs) ++ [span_scope sp].
Proof.
  induction gs as [|g gs IH].
  - destruct (decide (_ ∈ _)) as [Hin|_]; [simpl in Hin; by apply elem_of_nil in Hin|done].
  - cbn [place_scope fmap list_fmap].
    destruct (decide (ss_scope g = span_scope sp)) as [Heq|Hne].
    + cbn [fmap list_fmap ss_scope].
      by rewrite decide_True by (rewrite Heq; apply list_elem_of_here).
    + cbn [fmap list_fmap]. rewrite IH.
      destruct (decide (span_scope sp ∈ ss_scope <$> gs)) as [Hin|Hnin].
      * by rewrite decide_True by (by apply list_elem_of_further).
      * by rewrite decide_False by (rewrite elem_of_cons; intros [?|?]; done).
Qed.

Lemma place_resource_keys (sp : Span) (rs : TraceRecord) :
  rs_resource <$> place_resource sp rs
  = if decide (span_resource sp ∈ rs_resource <$> rs)
    then rs_resource <$> rs
    else (rs_resource <$> rs) ++ [span_resource sp].
Proof.
  induction rs as [|r rs IH].
  - destruct (decide (_ ∈ _)) as [Hin|_]; [simpl in Hin; by apply elem_of_nil in Hin|done].
  - cbn [place_resource fmap list_fmap].
    destruct (decide (rs_resource r = span_resource sp)) as [Heq|Hne].
    + cbn [fmap list_fmap rs_resource].
      by rewrite decide_True by (rewrite Heq; apply list_elem_of_here).
    + cbn [fmap list_fmap]. rewrite IH.
      destruct (decide (span_resource sp ∈ rs_resource <$> rs)) as [Hin|Hnin].
      * by rewrite decide_True by (by apply list_elem_of_further).
      * by rewrite decide_False by (rewrite elem_of_cons; intros [?|?]; done).
Qed.

(** Where a scope group of the result comes from: it was there and has
    another scope, or it is the span's group with the span added at its
    end, or it is new and holds the span alone. *)
Lemma elem_of_place_scope (sp : Span) (gs : list ScopeSpans) (g' : ScopeSpans) :
  NoDup (ss_scope <$> gs) ->
  g' ∈ place_scope sp gs ->
  (g' ∈ gs /\ ss_scope g' <> span_scope sp) \/
  (exists g, g ∈ gs /\ ss_scope g = span_scope sp /\
             g' = mkScopeSpans (ss_scope g) (ss_spans g ++ [sp])) \/
  ((span_scope sp ∉ ss_scope <$> gs) /\ g' = mkScopeSpans (span_scope sp) [sp]).
Proof.
  induction gs as [|g gs IH]; simpl; intros Hnd Hin.
  - apply list_elem_of_singleton in Hin. right. right.
    split; [apply not_elem_of_nil|done].
  - apply NoDup_cons in Hnd as [Hg Hnd].
    destruct (decide (ss_scope g = span_scope sp)) as [Heq|Hne].
    + apply elem_of_cons in Hin as [->|Hin].
      * right. left. exists g. split; [apply list_elem_of_here|done].
      * left. split; [by apply list_elem_of_further|].
        intros Heq'. apply Hg. rewrite Heq, <- Heq'.
        by apply list_elem_of_fmap_2.
    + apply elem_of_cons in Hin as [->|Hin].
      * left. split; [apply list_elem_of_here|done].
      * destruct (IH Hnd Hin) as [[? ?]|[(g0 & ? & ? & ?)|[? ?]]].
        -- left. split; [by apply list_elem_of_further|done].
        -- right. left. exists g0. split; [by apply list_elem_of_further|done].
        -- right. right. split; [|done]. rewrite elem_of_cons. by intros [?|?].
Qed.

Lemma elem_of_place_resource (sp : Span) (rs : TraceRecord) (r' : ResourceSpans) :
  NoDup (rs_resource <$> rs) ->
  r' ∈ place_resource sp rs ->
  (r' ∈ rs /\ rs_resource r' <> span_resource sp) \/
  (exists r, r ∈ rs /\ rs_resource r = span_resource sp /\
             r' = mkResourceSpans (rs_resource r) (place_scope sp (rs_scopes r))) \/
  ((span_resource sp ∉ rs_resource <$> rs) /\
   r' = mkResourceSpans (span_resource sp) (place_scope sp [])).
Proof.
  induction rs as [|r rs IH]; simpl; intros Hnd Hin.
  - apply list_elem_of_singleton in Hin. right. right.
    split; [apply not_elem_of_nil|done].
  - apply NoDup_cons in Hnd as [Hr Hnd].
    destruct (decide (rs_resource r = span_resource sp)) as [Heq|Hne].
    + apply elem_of_cons in Hin as [->|Hin].
      * right. left. exists r. split; [apply list_elem_of_here|done].
      * left. split; [by apply list_elem_of_further|].
        intros Heq'. apply Hr. rewrite Heq, <- Heq'.
        by apply list_elem_of_fmap_2.
    + apply elem_of_cons in Hin as [->|Hin].
      * left. split; [apply list_elem_of_here|done].
      * destruct (IH Hnd Hin) as [[? ?]|[(r0 & ? & ? & ?)|[? ?]]].
        -- left. split; [by apply list_elem_of_further|done].
        -- right. left. exists r0. split; [by apply list_elem_of_further|done].
        -- right. right. split; [|done]. rewrite elem_of_cons. by intros [?|?].
Qed.

(** Placing a span adds exactly one span. *)
Lemma scope_span_count_place (sp : Span) (gs : list ScopeSpans) :
  scope_span_count (place_scope sp gs) = S (scope_span_count gs).
Proof.
  unfold scope_span_count. induction gs as [|g gs IH]; simpl; [done|].
  destruct (decide (ss_scope g = span_scope sp)); simpl.
  - rewrite length_app. simpl. lia.
  - rewrite IH. lia.
Qed.

Lemma span_count_place (sp : Span) (rs : TraceRecord) :
  span_count (place_resource sp rs) = S (span_count rs).
Proof.
  unfold span_count. induction rs as [|r rs IH]; simpl.
  - change (scope_span_count [mkScopeSpans (span_scope sp) [sp]] + 0 = 1). done.
  - destruct (decide (rs_resource r = span_resource sp)); simpl.
    + rewrite scope_span_count_place. lia.
    + rewrite IH. lia.
Qed.

Lemma translate_snoc (batch : SpanBatch) (sp : Span) :
  translate (batch ++ [sp]) = place_resource sp (translate batch).
Proof. unfold translate. by rewrite foldl_snoc. Qed.

Lemma span_count_translate (batch : SpanBatch) :
  span_count (translate batch) = length batch.
Proof.
  induction batch as [|sp batch IH] using rev_ind; [done|].
  rewrite translate_snoc, span_count_place, IH, length_app. simpl. lia.
Qed.

(** *** The grouping rule holds of the translation *)

Lemma filter_key_nil {A K : Type} `{EqDecision K} (key : A -> K) (k : K) (l : list A) :
  k ∉ (key <$> l) -> filter (fun a => key a = k) l = [].
Proof.
  induction l as [|a l IH]; [done|].
  rewrite fmap_cons, not_elem_of_cons. intros [Hne Hnin].
  rewrite filter_cons_False by (intros Heq; by apply Hne). by apply IH.
Qed.

Lemma spans_of_resource_snoc (r : Resource) (batch : SpanBatch) (sp : Span) :
  spans_of_resource r (batch ++ [sp])
  = if decide (span_resource sp = r)
    then spans_of_resource r batch ++ [sp]
    else spans_of_resource r batch.
Proof.
  unfold spans_of_resource. rewrite filter_app, (filter_singleton _ sp []).
  destruct (decide (span_resource sp = r)); [done|apply app_nil_r].
Qed.

Lemma spans_of_scope_snoc_other (r : Resource) (s : Scope) (batch : SpanBatch) (sp : Span) :
  span_resource sp <> r \/ span_scope sp <> s ->
  spans_of_scope r s (batch ++ [sp]) = spans_of_scope r s batch.
Proof.
  intros Hne. unfold spans_of_scope. rewrite spans_of_resource_snoc.
  destruct (decide (span_resource sp = r)) as [Hr|Hr]; [|done].
  rewrite filter_app, (filter_singleton_False _ sp []), app_nil_r; [done|].
  intros Hs. by destruct Hne.
Qed.

Lemma spans_of_scope_snoc_same (batch : SpanBatch) (sp : Span) :
  spans_of_scope (span_resource sp) (span_scope sp) (batch ++ [sp])
  = spans_of_scope (span_resource sp) (span_scope sp) batch ++ [sp].
Proof.
  unfold spans_of_scope. rewrite spans_of_resource_snoc, decide_True by done.
  by rewrite filter_app, (filter_singleton_True _ sp []).
Qed.

Lemma Grouping_nil : Grouping [] [].
Proof.
  split; [done|].
  split; [intros g Hg|intros g sg Hg]; by apply elem_of_nil in Hg.
Qed.

(** The rule is kept when one more span is placed. *)
Lemma Grouping_place (batch : SpanBatch) (rec : TraceRecord) (sp : Span) :
  Grouping batch rec -> Grouping (batch ++ [sp]) (place_resource sp rec).
Proof.
  intros (Hkeys & Hscopes & Hspans).
  assert (NoDup (rs_resource <$> rec)) as Hnd
    by (rewrite Hkeys; apply NoDup_first_occurrences).
  assert (forall r, r ∈ rs_resource <$> rec <-> r ∈ span_resource <$> batch) as Hmem
    by (intros r; rewrite Hkeys; apply elem_of_first_occurrences).
  assert (forall g, g ∈ rec -> NoDup (ss_scope <$> rs_scopes g)) as Hnds
    by (intros g Hg; rewrite (Hscopes g Hg); apply NoDup_first_occurrences).
  assert (forall g s, g ∈ rec ->
            s ∈ ss_scope <$> rs_scopes g
            <-> s ∈ span_scope <$> spans_of_resource (rs_resource g) batch) as Hmems
    by (intros g s Hg; rewrite (Hscopes g Hg); apply elem_of_first_occurrences).
  split; [|split].
  - rewrite place_resource_keys, fmap_snoc, first_occurrences_snoc, <- Hkeys.
    destruct (decide (span_resource sp ∈ rs_resource <$> rec)) as [Hin|Hnin].
    + by rewrite decide_True by (by apply Hmem).
    + by rewrite decide_False by (by rewrite <- Hmem).
  - intros g' Hg'.
    destruct (elem_of_place_resource sp rec g' Hnd Hg')
      as [[Hg Hne]|[(g & Hg & Heq & ->)|[Hnew ->]]].
    + rewrite spans_of_resource_snoc, decide_False by done. by apply Hscopes.
    + cbn [rs_resource rs_scopes].
      rewrite spans_of_resource_snoc, decide_True by done.
      rewrite fmap_snoc, first_occurrences_snoc, place_scope_keys, <- (Hscopes g Hg).
      destruct (decide (span_scope sp ∈ ss_scope <$> rs_scopes g)) as [Hin|Hnin].
      * by rewrite decide_True by (by apply Hmems).
      * by rewrite decide_False by (by rewrite <- Hmems).
    + cbn [rs_resource rs_scopes].
      rewrite spans_of_resource_snoc, decide_True by done.
      unfold spans_of_resource.
      by rewrite filter_key_nil by (by rewrite <- Hmem).
  - intros g' sg Hg' Hsg.
    destruct (elem_of_place_resource sp rec g' Hnd Hg')
      as [[Hg Hne]|[(g & Hg & Heq & ->)|[Hnew ->]]].
    + rewrite spans_of_scope_snoc_other by (left; done). by apply Hspans.
    + cbn [rs_resource rs_scopes] in *.
      destruct (elem_of_place_scope sp (rs_scopes g) sg (Hnds g Hg) Hsg)
        as [[Hsg0 Hne]|[(sg0 & Hsg0 & Heq' & ->)|[Hnew ->]]].
      * rewrite spans_of_scope_snoc_other by (right; done). by apply Hspans.
      * cbn [ss_scope ss_spans]. rewrite Heq, Heq', spans_of_scope_snoc_same.
        f_equal. rewrite <- Heq, <- Heq'. by apply Hspans.
      * cbn [ss_scope ss_spans]. rewrite Heq, spans_of_scope_snoc_same.
        unfold spans_of_scope.
        rewrite filter_key_nil; [done|].
        rewrite <- Heq, <- Hmems by done. done.
    + cbn [rs_resource rs_scopes place_scope] in *.
      apply list_elem_of_singleton in Hsg as ->. cbn [ss_scope ss_spans].
      rewrite spans_of_scope_snoc_same. unfold spans_of_scope, spans_of_resource.
      rewrite (filter_key_nil span_resource) by (by rewrite <- Hmem). done.
Qed.

Lemma translate_Grouping (batch : SpanBatch) : Grouping batch (translate batch).
Proof.
  induction batch as [|sp batch IH] using rev_ind; [apply Grouping_nil|].
  rewrite translate_snoc. by apply Grouping_place.
Qed.

Lemma Grouping_unique (batch : SpanBatch) (rec1 rec2 : TraceRecord) :
  Grouping batch rec1 -> Grouping batch rec2 -> rec1 = rec2.
Proof.
  intros (Hk1 & Hs1 & Hp1) (Hk2 & Hs2 & Hp2).
  apply (list_eq_by_key rs_resource); [congruence|].
  intros [r1 gs1] [r2 gs2] Hg1 Hg2 Hr. cbn [rs_resource] in Hr. subst r2.
  f_equal. apply (list_eq_by_key ss_scope).
  - pose proof (Hs1 _ Hg1) as Hgs1. pose proof (Hs2 _ Hg2) as Hgs2.
    cbn [rs_resource rs_scopes] in Hgs1, Hgs2. congruence.
  - intros [s1 l1] [s2 l2] Hsg1 Hsg2 Hs. cbn [ss_scope] in Hs. subst s2.
    f_equal.
    pose proof (Hp1 _ _ Hg1 Hsg1) as Hl1. pose proof (Hp2 _ _ Hg2 Hsg2) as Hl2.
    cbn [rs_resource ss_scope ss_spans] in Hl1, Hl2. congruence.
Qed.

(** C8: translation is deterministic. The grouping rule of section 4.1
    leaves no choice: for every batch, the record [translate] builds
    satisfies the rule, and every record that satisfies it is that very
    record, with the same Resource groups and scope groups in the same
    order. Two translations of one batch, whenever they are run, are
    therefore structurally identical. *)
Theorem C8_the_batch_determines_the_record (batch : SpanBatch) (rec : TraceRecord) :
  Grouping batch rec <-> rec = translate batch.
Proof.
  split.
  - intros Hrec. apply (Grouping_unique batch); [done|apply translate_Grouping].
  - intros ->. apply translate_Grouping.
Qed.

(** C9: for every batch whose spans come from N distinct Resources and
    M distinct instrumentation scopes, M >= N, the translated record
    has exactly N Resource groups and as many spans as the batch. The
    groups are a partition of the batch: their Resources are pairwise
    different and come in the order of first occurrence in the batch;
    under each Resource the scopes are pairwise different and come in
    the order of first occurrence among that Resource's spans; a scope
    group holds exactly the batch's spans of its Resource and scope, in
    batch order; and every span of the batch is in a group. *)
Theorem C9_translate_groups_by_resource_then_scope (batch : SpanBatch) :
  distinct (span_resource <$> batch) <= distinct (span_scope <$> batch) ->
  length (translate batch) = distinct (span_resource <$> batch) /\
  span_count (translate batch) = length batch /\
  rs_resource <$> translate batch = first_occurrences (span_resource <$> batch) /\
  NoDup (rs_resource <$> translate batch) /\
  (forall g, g ∈ translate batch ->
     ss_scope <$> rs_scopes g
     = first_occurrences (span_scope <$> spans_of_resource (rs_resource g) batch) /\
     NoDup (ss_scope <$> rs_scopes g) /\
     forall sg, sg ∈ rs_scopes g ->
       ss_spans sg = spans_of_scope (rs_resource g) (ss_scope sg) batch /\
       forall sp, sp ∈ ss_spans sg ->
         sp ∈ batch /\ span_resource sp = rs_resource g /\ span_scope sp = ss_scope sg) /\
  (forall sp, sp ∈ batch ->
     exists g sg, g ∈ translate batch /\ sg ∈ rs_scopes g /\ sp ∈ ss_spans sg).
Proof.
  intros _. destruct (translate_Grouping batch) as (Hkeys & Hscopes & Hspans).
  split; [|split; [|split; [|split; [|split]]]].
  - by rewrite <- (length_fmap rs_resource), Hkeys, length_first_occurrences.
  - apply span_count_translate.
  - done.
  - rewrite Hkeys. apply NoDup_first_occurrences.
  - intros g Hg. split; [by apply Hscopes|]. split.
    + rewrite (Hscopes g Hg). apply NoDup_first_occurrences.
    + intros sg Hsg. split; [by apply Hspans|].
      intros sp. rewrite (Hspans g sg Hg Hsg). unfold spans_of_scope, spans_of_resource.
      rewrite !list_elem_of_filter. tauto.
  - intros sp Hsp.
    assert (span_resource sp ∈ rs_resource <$> translate batch) as Hr.
    { rewrite Hkeys, elem_of_first_occurrences. by apply list_elem_of_fmap_2. }
    apply list_elem_of_fmap in Hr as (g & Hgr & Hg).
    assert (sp ∈ spans_of_resource (rs_resource g) batch) as Hspr.
    { unfold spans_of_resource. by rewrite list_elem_of_filter. }
    assert (span_scope sp ∈ ss_scope <$> rs_scopes g) as Hs.
    { rewrite (Hscopes g Hg), elem_of_first_occurrences. by apply list_elem_of_fmap_2. }
    apply list_elem_of_fmap in Hs as (sg & Hsgs & Hsg).
    exists g, sg. split; [done|]. split; [done|].
    rewrite (Hspans g sg Hg Hsg). unfold spans_of_scope.
    by rewrite list_elem_of_filter.
Qed.

(** The example scenario of section 8. *)
Example translate_example_batch : translate example_batch = example_record.
Proof. vm_compute. reflexivity. Qed.

(** C8 on the example scenario: the expected record satisfies the
    grouping rule, being the translation. *)
Lemma C8_witness :
  example_record = translate example_batch /\
  Grouping example_batch example_record.
Proof.
  assert (example_record = translate example_batch) as Heq
    by (vm_compute; reflexivity).
  split; [exact Heq|].
  apply (C8_the_batch_determines_the_record example_batch example_record).
  exact Heq.
Defined.

(** C9 on the example scenario, where N = M = 2. *)
Lemma C9_witness :
  distinct (span_resource <$> example_batch) <= distinct (span_scope <$> example_batch) /\
  length (translate example_batch) = 2 /\
  span_count (translate example_batch) = 3 /\
  rs_resource <$> translate example_batch = [resource_A; resource_B].
Proof.
  assert (distinct (span_resource <$> example_batch)
          <= distinct (span_scope <$> example_batch)) as Hle
    by (vm_compute; lia).
  split; [exact Hle|].
  destruct (C9_translate_groups_by_resource_then_scope example_batch Hle)
    as (Hlen & Hcount & Hkeys & _).
  split; [rewrite Hlen; reflexivity|].
  split; [rewrite Hcount; reflexivity|].
  rewrite Hkeys. reflexivity.
Defined.

(** ** Running the embedded code *)

Section runs.
Context {E : Externals}.

Lemma added_app (w : World) (h : gmap loc component.ExporterCreateSettings)
    (x : Ext) (t : list Call) :
  added w (mkWorld h x (trace w ++ t)) = t.
Proof. unfold added. simpl. apply drop_app_length. Qed.

Lemma added_same (w : World) : added w w = [].
Proof. unfold added. apply drop_all. Qed.

Lemma bind_Ok {A B : Type} (m : M A) (k : A -> M B) (w w' : World) (a : A) :
  m w = Ok a w' -> (m ≫= k) w = k a w'.
Proof. intros Hm. unfold mbind, M_bind, bind. by rewrite Hm. Qed.

Lemma extern_run {A : Type} (c : Call) (f : Ext -> A * Ext) (w : World) :
  extern c f w = Ok (f (ext w)).1 (mkWorld (heap w) (f (ext w)).2 (trace w ++ [c])).
Proof. unfold extern. by destruct (f (ext w)). Qed.

(** The adapter's export writes one line and succeeds, whatever it
    wraps. *)
Lemma spanExporterAdapter_ExportSpans_run (e : internal.spanExporterAdapter)
    (ctx : context_Context) (spans : SpanBatch) (w : World) :
  internal.spanExporterAdapter_ExportSpans e ctx spans w
  = Ok None
      (mkWorld (heap w) (ext w)
         (trace w ++ [write_stdout ("Exporting " +:+ pretty (length spans)
                                    +:+ " spans to ClickHouse" +:+ newline)])).
Proof. reflexivity. Qed.

Lemma spanExporterAdapter_Shutdown_run (e : internal.spanExporterAdapter)
    (ctx : context_Context) (w : World) :
  internal.spanExporterAdapter_Shutdown e ctx w = Ok None w.
Proof. reflexivity. Qed.

Lemma NewFactory_nil_run (f : component.ExporterFactory) (w : World) :
  collex.NewFactory f None w
  = match (zap_NewProduction (ext w)).1.2 with
    | Some e =>
        Ok (None, Some e)
          (mkWorld (heap w) (zap_NewProduction (ext w)).2
             (trace w ++ [call_zap_NewProduction]))
    | None =>
        let x := (zap_NewProduction (ext w)).2 in
        Ok (Some (collex.mkFactory
                    (collex.default_settings (zap_NewProduction (ext w)).1.1
                       (otel_GetTracerProvider x).1) f), None)
          (mkWorld (heap w) (otel_GetTracerProvider x).2
             (trace w ++ [call_zap_NewProduction; call_otel_GetTracerProvider]))
    end.
Proof.
  unfold collex.NewFactory.
  rewrite (bind_Ok _ _ _ _ _ (extern_run _ _ _)).
  destruct (zap_NewProduction (ext w)) as [[logger [e|]] x]; simpl; [done|].
  rewrite (bind_Ok _ _ _ _ _ (extern_run _ _ _)). simpl.
  by rewrite <- app_assoc.
Qed.

Lemma NewFactory_ptr_run (f : component.ExporterFactory) (p : loc)
    (s : component.ExporterCreateSettings) (w : World) :
  heap w !! p = Some s ->
  collex.NewFactory f (Some p) w = Ok (Some (collex.mkFactory s f), None) w.
Proof.
  intros Hp. unfold collex.NewFactory, mbind, M_bind, bind, deref.
  by rewrite Hp.
Qed.

Lemma Factory_SpanExporter_run (f : collex.Factory) (ctx : context_Context)
    (cfg : option config_Exporter) (w : World) :
  let d := effective_config f cfg (ext w) in
  let r := component.CreateTracesExporter (collex.collFactory f) ctx
             (collex.createCfg f) d.1 d.2 in
  collex.Factory_SpanExporter (Some f) ctx cfg w
  = Ok match r.1.2 with
       | Some e => (None, Some e)
       | None => (Some (collex.mkSpanExporter r.1.1), None)
       end
      (mkWorld (heap w) r.2
         (trace w ++ config_calls cfg
            ++ [call_CreateTracesExporter ctx (collex.createCfg f) d.1])).
Proof.
  unfold collex.Factory_SpanExporter. destruct cfg as [c|]; simpl.
  - unfold mbind at 1, M_bind at 1, bind at 1. simpl.
    rewrite (bind_Ok _ _ _ _ _ (extern_run _ _ _)). simpl.
    by destruct (component.CreateTracesExporter _ _ _ _ _) as [[ce [e|]] x].
  - rewrite (bind_Ok _ _ _ _ _ (extern_run _ _ _)).
    rewrite (bind_Ok _ _ _ _ _ (extern_run _ _ _)). simpl.
    rewrite <- app_assoc. simpl.
    by destruct (component.CreateTracesExporter _ _ _ _ _) as [[ce [e|]] x].
Qed.

End runs.

(** ** The demo adapter *)

Section adapter.
Context {E : Externals}.

(** C1, as the code has it: for every span batch, the adapter's
    [ExportSpans] writes the line "Exporting <n> spans to ClickHouse",
    with <n> the length of the batch, and returns [nil]; it leaves the
    store and the libraries' state as they were and makes no call of
    the wrapped consumer's [ConsumeTraces]. *)
Theorem C1_export_logs_and_returns_nil (e : internal.spanExporterAdapter)
    (ctx : context_Context) (spans : SpanBatch) (w : World) :
  exists w',
    internal.spanExporterAdapter_ExportSpans e ctx spans w = Ok None w' /\
    heap w' = heap w /\
    ext w' = ext w /\
    trace w' = trace w ++ [write_stdout ("Exporting " +:+ pretty (length spans)
                                         +:+ " spans to ClickHouse" +:+ newline)] /\
    Forall (fun c => is_ConsumeTraces c = false) (added w w').
Proof.
  eexists. split; [apply spanExporterAdapter_ExportSpans_run|].
  simpl. rewrite added_app. repeat split. by constructor.
Qed.

(** C2, as the code has it: for every span batch and every error value
    the wrapped consumer's [ConsumeTraces] would return, whatever
    record it were handed, the adapter's [ExportSpans] returns [nil]:
    the consumer is not called (so there is no retry either) and its
    error is not carried. *)
Theorem C2_export_returns_nil_whatever_the_consumer_returns
    (e : internal.spanExporterAdapter) (c : component.Traces)
    (ctx : context_Context) (spans : SpanBatch) (td : TraceRecord) (w : World)
    (err : component.error) (x : Ext) :
  internal.cexp e = Some c ->
  component.ConsumeTraces c ctx td (ext w) = (err, x) ->
  exists w',
    internal.spanExporterAdapter_ExportSpans e ctx spans w = Ok None w' /\
    ext w' = ext w /\
    Forall (fun c => is_ConsumeTraces c = false) (added w w').
Proof.
  intros _ _. eexists. split; [apply spanExporterAdapter_ExportSpans_run|].
  simpl. rewrite added_app. split; [done|]. by constructor.
Qed.

(** C3, as the code has it: the adapter has no closed state. A shutdown
    that succeeded left the world as it was, and every export after it
    returns [nil], as before the shutdown, without a call of the wrapped
    consumer's [ConsumeTraces]. *)
Theorem C3_export_after_shutdown_returns_nil (e : internal.spanExporterAdapter)
    (ctx ctx' : context_Context) (spans : SpanBatch) (w w1 : World) :
  internal.spanExporterAdapter_Shutdown e ctx w = Ok None w1 ->
  w1 = w /\
  exists w2,
    internal.spanExporterAdapter_ExportSpans e ctx' spans w1 = Ok None w2 /\
    Forall (fun c => is_ConsumeTraces c = false) (added w1 w2).
Proof.
  rewrite spanExporterAdapter_Shutdown_run. intros [= <-]. split; [done|].
  eexists. split; [apply spanExporterAdapter_ExportSpans_run|].
  rewrite added_app. by constructor.
Qed.

(** C6: shutdown is idempotent. For each of the demo's exporters, a
    shutdown after a shutdown that succeeded returns [nil] again (it
    does not panic) and calls no component's [Shutdown]: nothing is
    forwarded to a wrapped consumer, the first time or the second. *)
Theorem C6_second_shutdown_succeeds_and_forwards_nothing (e : demo_SpanExporter)
    (ctx1 ctx2 : context_Context) (w w1 : World) :
  Shutdown e ctx1 w = Ok None w1 ->
  Forall (fun c => is_Shutdown c = false) (added w w1) /\
  exists w2,
    Shutdown e ctx2 w1 = Ok None w2 /\
    ext w2 = ext w1 /\
    Forall (fun c => is_Shutdown c = false) (added w1 w2).
Proof.
  destruct e as [a|s|s]; simpl.
  - rewrite spanExporterAdapter_Shutdown_run. intros [= <-].
    rewrite added_same. split; [constructor|].
    exists w. rewrite spanExporterAdapter_Shutdown_run, added_same.
    repeat split. constructor.
  - intros [= <-]. rewrite added_app. split; [by constructor|].
    eexists. split; [reflexivity|]. simpl. split; [done|].
    rewrite added_app. by constructor.
  - intros [= <-]. rewrite added_app. split; [by constructor|].
    eexists. split; [reflexivity|]. simpl. split; [done|].
    rewrite added_app. by constructor.
Qed.

End adapter.

(** ** Package collex: the stub and the factory *)

Section factory.
Context {E : Externals}.

(** C7: [TracesExporter] is a stub. For every Collector exporter [e],
    also a [nil] one, [TracesExporter e] is [nil]: it never produces a
    span exporter. *)
Theorem C7_TracesExporter_returns_nil (e : option component.TracesExporter) :
  collex.TracesExporter e = None.
Proof. reflexivity. Qed.

(** The three ways [NewFactory] can end: a panic, on a pointer to
    nothing; the logger's error; or a factory around [f], some calls
    later. *)
Lemma NewFactory_cases (f : component.ExporterFactory) (set : option loc) (w : World) :
  collex.NewFactory f set w = Panic \/
  (exists e,
     set = None /\
     (zap_NewProduction (ext w)).1.2 = Some e /\
     collex.NewFactory f set w
     = Ok (None, Some e)
         (mkWorld (heap w) (zap_NewProduction (ext w)).2
            (trace w ++ [call_zap_NewProduction]))) \/
  (exists fac w1 t,
     collex.NewFactory f set w = Ok (Some fac, None) w1 /\
     collex.collFactory fac = f /\
     trace w1 = trace w ++ t).
Proof.
  destruct set as [p|].
  - destruct (heap w !! p) as [s|] eqn:Hp.
    + right. right. exists (collex.mkFactory s f), w, [].
      split; [by apply NewFactory_ptr_run|]. split; [done|by rewrite app_nil_r].
    + left. unfold collex.NewFactory, mbind, M_bind, bind, deref. by rewrite Hp.
  - rewrite NewFactory_nil_run.
    destruct (zap_NewProduction (ext w)) as [[logger [e|]] x]; simpl.
    + right. left. by exists e.
    + right. right. by eexists _, _, _.
Qed.

(** Construction goes on with [SpanExporter] exactly when [NewFactory]
    returned a factory. *)
Lemma newAdapter_after_NewFactory (f : component.ExporterFactory) (set : option loc)
    (ctx : context_Context) (cfg : option config_Exporter) (w w1 : World)
    (fac : collex.Factory) :
  collex.NewFactory f set w = Ok (Some fac, None) w1 ->
  collex.newAdapter f set ctx cfg w = collex.Factory_SpanExporter (Some fac) ctx cfg w1.
Proof. intros Hnew. unfold collex.newAdapter. by rewrite (bind_Ok _ _ _ _ _ Hnew). Qed.

(** C4, as the code has it. Construction is [NewFactory], then
    [SpanExporter]. (1) When it returns an error, no exporter is
    produced, and the error is one of two: the error of
    [zap.NewProduction], which [NewFactory] calls when it is given no
    settings, in which case the factory's [CreateTracesExporter] was not
    reached; or the error [CreateTracesExporter] returned when it was
    called with the factory's settings. (2) A logger that cannot be
    built is fatal: with no settings given, the error of
    [zap.NewProduction] is what construction returns, unchanged and
    without an exporter. (3) Once [NewFactory] has returned a factory,
    the outcome is that of [CreateTracesExporter]: its error is
    returned unchanged and without an exporter, and without an error
    the exporter it built is returned, wrapped, with a nil error. *)
Theorem C4_construction_fails_with_the_logger_or_the_consumer
    (f : component.ExporterFactory) (set : option loc) (ctx : context_Context)
    (cfg : option config_Exporter) (w : World) :
  (forall (exp : collex.trace_SpanExporter) (e : error_value) (w' : World),
     collex.newAdapter f set ctx cfg w = Ok (exp, Some e) w' ->
     exp = None /\
     ((set = None /\
       (zap_NewProduction (ext w)).1.2 = Some e /\
       added w w' = [call_zap_NewProduction])
      \/
      (exists fac w1,
         collex.NewFactory f set w = Ok (Some fac, None) w1 /\
         call_CreateTracesExporter ctx (collex.createCfg fac)
           (effective_config fac cfg (ext w1)).1 ∈ added w w' /\
         (component.CreateTracesExporter f ctx (collex.createCfg fac)
            (effective_config fac cfg (ext w1)).1
            (effective_config fac cfg (ext w1)).2).1.2 = Some e))) /\
  (forall e : error_value,
     set = None ->
     (zap_NewProduction (ext w)).1.2 = Some e ->
     collex.newAdapter f set ctx cfg w
     = Ok (None, Some e)
         (mkWorld (heap w) (zap_NewProduction (ext w)).2
            (trace w ++ [call_zap_NewProduction]))) /\
  (forall (fac : collex.Factory) (w1 : World)
          (ce : option component.TracesExporter) (err : component.error) (x : Ext),
     collex.NewFactory f set w = Ok (Some fac, None) w1 ->
     component.CreateTracesExporter f ctx (collex.createCfg fac)
       (effective_config fac cfg (ext w1)).1
       (effective_config fac cfg (ext w1)).2 = ((ce, err), x) ->
     exists w',
       collex.newAdapter f set ctx cfg w
       = Ok match err with
            | Some e => (None, Some e)
            | None => (Some (collex.mkSpanExporter ce), None)
            end w' /\
       ext w' = x /\
       call_CreateTracesExporter ctx (collex.createCfg fac)
         (effective_config fac cfg (ext w1)).1 ∈ added w w').
Proof.
  assert (forall fac w1,
            collex.NewFactory f set w = Ok (Some fac, None) w1 ->
            collex.collFactory fac = f /\
            forall h x,
              call_CreateTracesExporter ctx (collex.createCfg fac)
                (effective_config fac cfg (ext w1)).1
              ∈ added w (mkWorld h x
                           (trace w1 ++ config_calls cfg
                              ++ [call_CreateTracesExporter ctx (collex.createCfg fac)
                                    (effective_config fac cfg (ext w1)).1])))
    as Hbuilt.
  { intros fac w1 Hnew.
    destruct (NewFactory_cases f set w)
      as [Hp|[(e & _ & _ & Hz)|(fac' & w1' & t & Hnew' & Hf & Ht)]];
      rewrite Hnew in *; [done|done|].
    injection Hnew' as <- <-. split; [done|]. intros h x.
    unfold added. simpl. rewrite Ht, <- app_assoc, drop_app_length.
    rewrite !elem_of_app, list_elem_of_singleton. auto. }
  split; [|split].
  - intros exp e w' Hrun.
    destruct (NewFactory_cases f set w)
      as [Hp|[(e0 & Hset & Hzap & Hz)|(fac & w1 & t & Hnew & Hf & Ht)]].
    + unfold collex.newAdapter, mbind, M_bind, bind in Hrun. by rewrite Hp in Hrun.
    + unfold collex.newAdapter in Hrun. rewrite (bind_Ok _ _ _ _ _ Hz) in Hrun.
      injection Hrun as <- <- <-. split; [done|]. left.
      split; [done|]. split; [done|]. by rewrite added_app.
    + rewrite (newAdapter_after_NewFactory _ _ _ _ _ _ _ Hnew) in Hrun.
      rewrite Factory_SpanExporter_run in Hrun. cbv zeta in Hrun.
      destruct (Hbuilt fac w1 Hnew) as [Hfac Hcall]. rewrite Hfac in Hrun.
      destruct (component.CreateTracesExporter f ctx (collex.createCfg fac)
                  (effective_config fac cfg (ext w1)).1
                  (effective_config fac cfg (ext w1)).2) as [[ce [e'|]] x] eqn:Hc;
        simpl in Hrun; [|done].
      injection Hrun as <- <- <-. split; [done|]. right.
      exists fac, w1. split; [done|]. split; [apply Hcall|].
      by rewrite Hc.
  - intros e -> Hzap. unfold collex.newAdapter, mbind, M_bind, bind.
    rewrite NewFactory_nil_run, Hzap. done.
  - intros fac w1 ce err x Hnew Hc.
    rewrite (newAdapter_after_NewFactory _ _ _ _ _ _ _ Hnew).
    rewrite Factory_SpanExporter_run. cbv zeta.
    destruct (Hbuilt fac w1 Hnew) as [Hfac Hcall]. rewrite Hfac, Hc. simpl.
    eexists. split; [by destruct err|]. split; [done|]. apply Hcall.
Qed.


(** C10: for every exporter factory [f] and every settings pointer [p]
    that is not nil (it points at settings [s]), [NewFactory f p]
    returns a factory and a [nil] error, without any call or output, and
    the factory holds a copy of [s]: after the caller overwrites the
    settings behind [p], the factory still passes [s] to
    [CreateTracesExporter]. *)
Theorem C10_NewFactory_copies_the_settings (f : component.ExporterFactory)
    (p : loc) (s : component.ExporterCreateSettings) (w : World) :
  heap w !! p = Some s ->
  collex.NewFactory f (Some p) w = Ok (Some (collex.mkFactory s f), None) w /\
  forall (s' : component.ExporterCreateSettings) (ctx : context_Context)
         (cfg : option config_Exporter),
  exists r w',
    (assign p s';;
     collex.Factory_SpanExporter (Some (collex.mkFactory s f)) ctx cfg) w = Ok r w' /\
    heap w' !! p = Some s' /\
    settings_passed (added w w') = [s].
Proof.
  intros Hp. split; [by apply NewFactory_ptr_run|].
  intros s' ctx cfg.
  assert (assign p s' w = Ok tt (mkWorld (<[p := s']> (heap w)) (ext w) (trace w)))
    as Hassign by (unfold assign; by rewrite Hp).
  eexists _, _. split.
  - rewrite (bind_Ok _ _ _ _ _ Hassign). apply Factory_SpanExporter_run.
  - simpl. split; [apply lookup_insert_eq|].
    rewrite added_app. by destruct cfg.
Qed.

End factory.

(** ** The adapter and the factory on the test doubles *)

Section examples.

(** C1 does not hold as stated: exporting the example batch through an
    adapter makes no call of the wrapped consumer's [ConsumeTraces]. *)
Lemma C1_counterexample :
  ~ export_forwards (E := test_env false)
      (failing_adapter false) 0 example_batch (empty_world false).
Proof.
  intros (r & w' & ctx' & td & Hrun & Hin & _).
  rewrite spanExporterAdapter_ExportSpans_run in Hrun.
  injection Hrun as <- <-. unfold added in Hin. simpl in Hin.
  apply list_elem_of_singleton in Hin. discriminate Hin.
Qed.

(** C2 does not hold as stated: the consumer's ingest would fail with
    "clickhouse: connection refused", and the export returns [nil]. *)
Lemma C2_counterexample :
  ~ export_passes_error (E := test_env false)
      (failing_adapter false) 0 example_batch (empty_world false).
Proof.
  intros Hclaim.
  destruct (Hclaim (failing_consumer false) eq_refl) as (ctx' & td & w' & Hrun).
  rewrite spanExporterAdapter_ExportSpans_run in Hrun. discriminate Hrun.
Qed.

(** C2 on the adapter around the failing consumer. *)
Lemma C2_witness :
  internal.cexp (failing_adapter false) = Some (failing_consumer false) /\
  component.ConsumeTraces (E := test_env false) (failing_consumer false) 0
    example_record (ext (empty_world false))
  = (Some "clickhouse: connection refused", 1) /\
  exists w',
    internal.spanExporterAdapter_ExportSpans (E := test_env false)
      (failing_adapter false) 0 example_batch (empty_world false) = Ok None w' /\
    ext w' = ext (empty_world false) /\
    Forall (fun c => is_ConsumeTraces c = false) (added (empty_world false) w').
Proof.
  split; [reflexivity|]. split; [reflexivity|].
  apply (C2_export_returns_nil_whatever_the_consumer_returns (E := test_env false)
           (failing_adapter false) (failing_consumer false) 0 example_batch
           example_record (empty_world false)
           (Some "clickhouse: connection refused") 1);
    reflexivity.
Defined.

(** C3 does not hold as stated: after a shutdown that succeeded, the
    export does not fail. *)
Lemma C3_counterexample :
  ~ export_rejected_after_shutdown (E := test_env false)
      (failing_adapter false) 0 example_batch (empty_world false).
Proof.
  intros Hclaim.
  destruct (Hclaim (empty_world false) eq_refl) as (closed & w2 & Hrun & _).
  rewrite spanExporterAdapter_ExportSpans_run in Hrun. discriminate Hrun.
Qed.

(** C3 on the same adapter: shutdown, then an export. *)
Lemma C3_witness :
  internal.spanExporterAdapter_Shutdown (E := test_env false)
    (failing_adapter false) 0 (empty_world false) = Ok None (empty_world false) /\
  (empty_world false = empty_world false /\
   exists w2,
     internal.spanExporterAdapter_ExportSpans (E := test_env false)
       (failing_adapter false) 1 example_batch (empty_world false) = Ok None w2 /\
     Forall (fun c => is_ConsumeTraces c = false) (added (empty_world false) w2)).
Proof.
  split; [reflexivity|].
  apply (C3_export_after_shutdown_returns_nil (E := test_env false)
           (failing_adapter false) 0 1 example_batch
           (empty_world false) (empty_world false)).
  reflexivity.
Defined.

(** C6 on the same adapter: shutdown twice. *)
Lemma C6_witness :
  Shutdown (E := test_env false) (adapter_exporter (failing_adapter false)) 0
    (empty_world false) = Ok None (empty_world false) /\
  (Forall (fun c => is_Shutdown c = false)
     (added (empty_world false) (empty_world false)) /\
   exists w2,
     Shutdown (E := test_env false) (adapter_exporter (failing_adapter false)) 1
       (empty_world false) = Ok None w2 /\
     ext w2 = ext (empty_world false) /\
     Forall (fun c => is_Shutdown c = false) (added (empty_world false) w2)).
Proof.
  split; [reflexivity|].
  apply (C6_second_shutdown_succeeds_and_forwards_nothing (E := test_env false)
           (adapter_exporter (failing_adapter false)) 0 1
           (empty_world false) (empty_world false)).
  reflexivity.
Defined.

(** C4 does not hold as stated: with no settings given and a logger
    that cannot be built, construction fails before the factory's
    [CreateTracesExporter] is reached. *)
Lemma C4_counterexample :
  ~ construction_fails_only_with_consumer (E := test_env true)
      (picky_factory true) None 0 None (empty_world true).
Proof.
  intros Hclaim.
  destruct (Hclaim None "zap: no logger"
              (mkWorld (E := test_env true) ∅ 1 [call_zap_NewProduction]) eq_refl)
    as (_ & s & c & x & Hin & _).
  apply list_elem_of_singleton in Hin. discriminate Hin.
Qed.

(** C4 on two runs: one where the logger cannot be built, and one
    where the logger is built and the factory refuses the
    configuration. *)
Lemma C4_witness :
  (zap_NewProduction (Externals := test_env true) (ext (empty_world true))).1.2
  = Some "zap: no logger" /\
  collex.newAdapter (E := test_env true) (picky_factory true) None 0 None
    (empty_world true)
  = Ok (None, Some "zap: no logger")
      (mkWorld (E := test_env true) ∅ 1 [call_zap_NewProduction]) /\
  collex.NewFactory (E := test_env false) (picky_factory false) (Some 1%positive)
    (caller_world false)
  = Ok (Some (collex.mkFactory (caller_settings false) (picky_factory false)), None)
      (caller_world false) /\
  exists w',
    collex.newAdapter (E := test_env false) (picky_factory false) (Some 1%positive) 0
      (Some "mine") (caller_world false)
    = Ok (None, Some "invalid configuration") w'.
Proof.
  split; [reflexivity|].
  split.
  { apply (proj1 (proj2 (C4_construction_fails_with_the_logger_or_the_consumer
                           (E := test_env true)
                           (picky_factory true) None 0 None (empty_world true)))
             "zap: no logger"); reflexivity. }
  split; [reflexivity|].
  destruct (proj2 (proj2 (C4_construction_fails_with_the_logger_or_the_consumer
                            (E := test_env false)
                            (picky_factory false) (Some 1%positive) 0 (Some "mine")
                            (caller_world false)))
              (collex.mkFactory (caller_settings false) (picky_factory false))
              (caller_world false) None (Some "invalid configuration") 1
              eq_refl eq_refl)
    as (w' & Hrun & _).
  exists w'. exact Hrun.
Defined.

(** The other way construction fails: the factory refuses the
    configuration, and its error comes back unchanged. *)
Example newAdapter_refused_config :
  collex.newAdapter (E := test_env false) (picky_factory false) None 0 (Some "mine")
    (empty_world false)
  = Ok (None, Some "invalid configuration")
      (mkWorld (E := test_env false) ∅ 3
         [call_zap_NewProduction; call_otel_GetTracerProvider;
          call_CreateTracesExporter (E := test_env false) 0
            (collex.default_settings (E := test_env false) (Some "production") "global")
            (Some "mine")]).
Proof. reflexivity. Qed.

(** With a nil configuration the factory's default is used, and the
    picky factory accepts it. *)
Example newAdapter_default_config :
  collex.newAdapter (E := test_env false) (picky_factory false) None 0 None
    (empty_world false)
  = Ok (Some (collex.mkSpanExporter (Some (accepting_exporter false))), None)
      (mkWorld (E := test_env false) ∅ 4
         [call_zap_NewProduction; call_otel_GetTracerProvider;
          call_CreateDefaultConfig;
          call_CreateTracesExporter (E := test_env false) 0
            (collex.default_settings (E := test_env false) (Some "production") "global")
            (Some "default")]).
Proof. reflexivity. Qed.

(** C10 on a caller that holds settings behind the pointer [1]. *)
Lemma C10_witness :
  heap (caller_world false) !! 1%positive = Some (caller_settings false) /\
  (collex.NewFactory (E := test_env false) (picky_factory false) (Some 1%positive)
     (caller_world false)
   = Ok (Some (collex.mkFactory (caller_settings false) (picky_factory false)), None)
       (caller_world false) /\
   forall (s' : component.ExporterCreateSettings) (ctx : context_Context)
          (cfg : option config_Exporter),
   exists r w',
     (assign (E := test_env false) 1%positive s';;
      collex.Factory_SpanExporter (E := test_env false)
        (Some (collex.mkFactory (caller_settings false) (picky_factory false)))
        ctx cfg) (caller_world false) = Ok r w' /\
     heap w' !! 1%positive = Some s' /\
     settings_passed (added (caller_world false) w') = [caller_settings false]).
Proof.
  split; [reflexivity|].
  apply (C10_NewFactory_copies_the_settings (E := test_env false)
           (picky_factory false) 1%positive (caller_settings false)
           (caller_world false)).
  reflexivity.
Defined.

(** The same on a run: the caller overwrites its settings after
    [NewFactory], and the exporter is still created with the old ones. *)
Example settings_overwritten_after_NewFactory :
  ('(fac, _) ← collex.NewFactory (E := test_env false) (picky_factory false)
                 (Some 1%positive);
   assign (E := test_env false) 1%positive (other_settings false);;
   collex.Factory_SpanExporter (E := test_env false) fac 0 None) (caller_world false)
  = Ok (Some (collex.mkSpanExporter (Some (accepting_exporter false))), None)
      (mkWorld (E := test_env false) {[ 1%positive := other_settings false ]} 2
         [call_CreateDefaultConfig;
          call_CreateTracesExporter (E := test_env false) 0 (caller_settings false) (Some "default")]).
Proof. vm_compute. reflexivity. Qed.

End examples.

(** * Further properties of the code *)

(** ** The factory *)

Section factory_more.
Context {E : Externals}.

Lemma settings_passed_app (t1 t2 : list Call) :
  settings_passed (t1 ++ t2) = settings_passed t1 ++ settings_passed t2.
Proof. apply omap_app. Qed.

Lemma settings_passed_config_calls (cfg : option config_Exporter) :
  settings_passed (config_calls cfg) = [].
Proof. by destruct cfg. Qed.

(** X1: [NewFactory] returns a factory or an error, never both and
    never neither, when its settings pointer is nil or points at
    settings. It leaves the store as it was; the factory wraps [f]; and
    an error can only be the one [zap.NewProduction] returned for nil
    settings, in which case [otel.GetTracerProvider] was not asked. *)
Theorem X1_NewFactory_returns_a_factory_or_an_error
    (f : component.ExporterFactory) (set : option loc) (w : World) :
  (forall p, set = Some p -> is_Some (heap w !! p)) ->
  exists fac err w',
    collex.NewFactory f set w = Ok (fac, err) w' /\
    (is_Some fac <-> err = None) /\
    heap w' = heap w /\
    (forall fc, fac = Some fc -> collex.collFactory fc = f) /\
    (forall e, err = Some e ->
       set = None /\
       (zap_NewProduction (ext w)).1.2 = Some e /\
       added w w' = [call_zap_NewProduction]).
Proof.
  intros Hset. destruct set as [p|].
  - destruct (Hset p eq_refl) as [s Hs].
    eexists _, _, _. split; [by apply NewFactory_ptr_run|].
    split; [split; [done|by eexists]|]. split; [done|].
    split; [by intros fc [= <-]|done].
  - rewrite NewFactory_nil_run.
    destruct (zap_NewProduction (ext w)) as [[logger [e|]] x]; simpl.
    + eexists _, _, _. split; [done|].
      split; [split; [by intros [? ?]|done]|]. split; [done|].
      split; [done|]. intros e' [= <-]. by rewrite added_app.
    + eexists _, _, _. split; [done|].
      split; [split; [done|by eexists]|]. split; [done|].
      split; [by intros fc [= <-]|done].
Qed.

(** X2: when construction is given no settings and the logger can be
    built, the exporter is created with the default settings: the build
    information of collex, the logger [zap.NewProduction] returned and
    the tracer provider [otel.GetTracerProvider] returned. *)
Theorem X2_nil_settings_reach_the_factory_as_the_defaults
    (f : component.ExporterFactory) (ctx : context_Context)
    (cfg : option config_Exporter) (w : World) :
  (zap_NewProduction (ext w)).1.2 = None ->
  exists r w' s,
    collex.newAdapter f None ctx cfg w = Ok r w' /\
    settings_passed (added w w') = [s] /\
    component.BuildInfo_ s
    = component.mkBuildInfo "collex"
        "OpenTelemetry Collector to OpenTelemetry Go translator" "latest" /\
    component.Logger (component.TelemetrySettings_ s)
    = (zap_NewProduction (ext w)).1.1 /\
    component.TracerProvider (component.TelemetrySettings_ s)
    = (otel_GetTracerProvider (zap_NewProduction (ext w)).2).1.
Proof.
  intros Hzap. unfold collex.newAdapter, mbind, M_bind, bind.
  rewrite NewFactory_nil_run, Hzap. simpl.
  pose proof (Factory_SpanExporter_run
                (collex.mkFactory
                   (collex.default_settings (zap_NewProduction (ext w)).1.1
                      (otel_GetTracerProvider (zap_NewProduction (ext w)).2).1) f)
                ctx cfg
                (mkWorld (heap w) (otel_GetTracerProvider (zap_NewProduction (ext w)).2).2
                   (trace w ++ [call_zap_NewProduction; call_otel_GetTracerProvider])))
    as Hrun.
  simpl in Hrun. rewrite Hrun. clear Hrun.
  eexists _, _, _. split; [done|].
  rewrite <- app_assoc, added_app, !settings_passed_app, settings_passed_config_calls.
  simpl. done.
Qed.

(** X3: [SpanExporter] on a factory whose exporter factory is not nil.
    An exporter factory is modelled by its methods, so a nil interface
    value, which [NewFactory] accepts and on which [SpanExporter]
    panics, is outside this statement: the hypothesis names what the
    factory's [CreateTracesExporter] returns for the call, and only a
    factory that is not nil returns anything. Under it, [SpanExporter]
    returns an exporter or an error, never both and never neither. It
    asks for the factory's default configuration only when it is given
    none, then makes that one call of [CreateTracesExporter], with the
    factory's settings, and nothing else. The error is the one the call
    returned; without an error the exporter wraps whatever Collector
    exporter the call returned, a nil one included, which is not
    checked. The store is left as it was. *)
Theorem X3_SpanExporter_wraps_what_the_factory_built (f : collex.Factory)
    (ctx : context_Context) (cfg : option config_Exporter) (w : World)
    (ce : option component.TracesExporter) (err : component.error) (x : Ext) :
  component.CreateTracesExporter (collex.collFactory f) ctx (collex.createCfg f)
    (effective_config f cfg (ext w)).1 (effective_config f cfg (ext w)).2
  = ((ce, err), x) ->
  exists exp w',
    collex.Factory_SpanExporter (Some f) ctx cfg w = Ok (exp, err) w' /\
    (is_Some exp <-> err = None) /\
    (err = None -> exp = Some (collex.mkSpanExporter ce)) /\
    heap w' = heap w /\
    ext w' = x /\
    added w w'
    = config_calls cfg
      ++ [call_CreateTracesExporter ctx (collex.createCfg f)
            (effective_config f cfg (ext w)).1] /\
    (forall c, cfg = Some c -> (effective_config f cfg (ext w)).1 = Some c).
Proof.
  intros Hc. rewrite Factory_SpanExporter_run. cbv zeta. rewrite Hc. simpl.
  assert (forall c, cfg = Some c -> (effective_config f cfg (ext w)).1 = Some c)
    as Hgiven by (by intros c ->).
  destruct err as [e|].
  - eexists _, _. split; [done|].
    split; [split; [by intros [? ?]|done]|]. split; [done|].
    split; [done|]. split; [done|]. split; [by rewrite added_app|done].
  - eexists _, _. split; [done|].
    split; [split; [done|by eexists]|]. split; [done|].
    split; [done|]. split; [done|]. split; [by rewrite added_app|done].
Qed.

(** The edge of X3: a factory that reports success without an exporter
    still yields a span exporter, around nil. *)
Example SpanExporter_around_nil :
  collex.Factory_SpanExporter (E := test_env false)
    (Some (collex.mkFactory (caller_settings false) careless_factory)) 0 None
    (empty_world false)
  = Ok (Some (collex.mkSpanExporter None), None)
      (mkWorld (E := test_env false) ∅ 2
         [call_CreateDefaultConfig;
          call_CreateTracesExporter (E := test_env false) 0 (caller_settings false) None]).
Proof. reflexivity. Qed.



End factory_more.

(** ** The demo's exporters *)

Section exporters_more.
Context {E : Externals}.

Lemma is_stdout_app (t1 t2 : list Call) :
  Forall (fun c => is_stdout c = true) t1 ->
  Forall (fun c => is_stdout c = true) t2 ->
  Forall (fun c => is_stdout c = true) (t1 ++ t2).
Proof. intros. by apply Forall_app. Qed.

(** One call on an exporter that has its configuration: it returns
    [nil] and only writes to standard output. *)
Lemma run_call_run (e : demo_SpanExporter) (c : exporter_call) (w : World) :
  has_config e ->
  exists t,
    run_call e c w = Ok None (mkWorld (heap w) (ext w) (trace w ++ t)) /\
    Forall (fun c => is_stdout c = true) t.
Proof.
  intros He. destruct e as [a|s|s], c as [ctx spans|ctx]; simpl in *.
  - eexists. split; [apply spanExporterAdapter_ExportSpans_run|]. by constructor.
  - exists []. rewrite app_nil_r. split; [by destruct w|constructor].
  - unfold internal.simulatedExporter_ExportSpans.
    destruct (internal.config s) as [cfg|]; [|done].
    eexists. split; [reflexivity|]. by constructor.
  - eexists. split; [reflexivity|]. by constructor.
  - unfold main.simulatedExporter_ExportSpans.
    destruct (main.config s) as [cfg|]; [|done].
    eexists. split; [reflexivity|]. by constructor.
  - eexists. split; [reflexivity|]. by constructor.
Qed.

(** X5: the demo's exporters keep no state and reach no library.
    Whatever calls of [ExportSpans] and [Shutdown] are made on one of
    them, in whatever order, exports after shutdowns included, every
    call returns [nil], none panics, the store and the libraries' state
    stay as they were, and the only effect is text on standard output.
    The simulated exporters need their configuration pointer not to be
    nil. *)
Theorem X5_demo_exporters_only_print (e : demo_SpanExporter)
    (cs : list exporter_call) (w : World) :
  has_config e ->
  exists w' t,
    run_calls e cs w = Ok (replicate (length cs) None) w' /\
    heap w' = heap w /\
    ext w' = ext w /\
    trace w' = trace w ++ t /\
    Forall (fun c => is_stdout c = true) t.
Proof.
  intros He. revert w. induction cs as [|c cs IH]; intros w.
  - exists w, []. simpl. rewrite app_nil_r. repeat split. constructor.
  - destruct (run_call_run e c w He) as (t1 & Hc & Ht1).
    destruct (IH (mkWorld (heap w) (ext w) (trace w ++ t1)))
      as (w' & t2 & Hcs & Hheap & Hext & Htrace & Ht2).
    exists w', (t1 ++ t2). cbn [run_calls].
    rewrite (bind_Ok _ _ _ _ _ Hc), (bind_Ok _ _ _ _ _ Hcs).
    split; [done|]. split; [done|]. split; [done|].
    split; [by rewrite Htrace, app_assoc|by apply is_stdout_app].
Qed.

(** X6: on the adapter, a session writes exactly one line per export,
    in call order, each giving the size of its batch; shutdowns write
    nothing, and an export after a shutdown is logged like any other. *)
Theorem X6_adapter_logs_one_line_per_export (a : internal.spanExporterAdapter)
    (cs : list exporter_call) (w : World) :
  exists rs w',
    run_calls (adapter_exporter a) cs w = Ok rs w' /\
    added w w'
    = (fun n => write_stdout ("Exporting " +:+ pretty n
                              +:+ " spans to ClickHouse" +:+ newline))
      <$> exported_sizes cs.
Proof.
  assert (forall w, exists rs w',
            run_calls (adapter_exporter a) cs w = Ok rs w' /\
            trace w'
            = trace w
              ++ ((fun n => write_stdout ("Exporting " +:+ pretty n
                                          +:+ " spans to ClickHouse" +:+ newline))
                  <$> exported_sizes cs)) as Hgen.
  { induction cs as [|c cs IH]; intros w0.
    - exists [], w0. simpl. by rewrite app_nil_r.
    - destruct c as [ctx spans|ctx]; cbn [run_calls run_call ExportSpans Shutdown].
      + rewrite (bind_Ok _ _ _ _ _ (spanExporterAdapter_ExportSpans_run a ctx spans w0)).
        match goal with
        | |- context [mkWorld ?h ?x ?t] =>
            destruct (IH (mkWorld h x t)) as (rs & w' & Hrun & Htrace)
        end.
        rewrite (bind_Ok _ _ _ _ _ Hrun).
        eexists _, w'. split; [done|].
        rewrite Htrace. simpl. by rewrite <- app_assoc.
      + rewrite (bind_Ok _ _ _ _ _ (spanExporterAdapter_Shutdown_run a ctx w0)).
        destruct (IH w0) as (rs & w' & Hrun & Htrace).
        rewrite (bind_Ok _ _ _ _ _ Hrun).
        eexists _, w'. split; [done|]. by rewrite Htrace. }
  destruct (Hgen w) as (rs & w' & Hrun & Htrace).
  exists rs, w'. split; [done|].
  unfold added. rewrite Htrace. apply drop_app_length.
Qed.

(** X7: a simulated exporter whose configuration pointer is nil can be
    shut down but cannot export. A session on it panics exactly when it
    holds a call of [ExportSpans], whatever the batch, an empty one
    included; a session of shutdowns alone goes through. *)
Theorem X7_without_config_a_session_panics_iff_it_exports (e : demo_SpanExporter)
    (cs : list exporter_call) (w : World) :
  ~ has_config e ->
  (run_calls e cs w = Panic
   <-> exists ctx spans, do_ExportSpans ctx spans ∈ cs).
Proof.
  intros He.
  assert (forall ctx spans w0, run_call e (do_ExportSpans ctx spans) w0 = Panic)
    as Hexport.
  { intros ctx spans w0. destruct e as [a|s|s]; simpl in *.
    - by destruct He.
    - unfold internal.simulatedExporter_ExportSpans.
      destruct (internal.config s); [by destruct He|done].
    - unfold main.simulatedExporter_ExportSpans.
      destruct (main.config s); [by destruct He|done]. }
  assert (forall ctx w0, exists w1, run_call e (do_Shutdown ctx) w0 = Ok None w1)
    as Hshutdown.
  { intros ctx w0. destruct e as [a|s|s]; simpl in *.
    - by destruct He.
    - eexists. reflexivity.
    - eexists. reflexivity. }
  revert w. induction cs as [|c cs IH]; intros w.
  - split; [done|]. intros (ctx & spans & Hin). by apply elem_of_nil in Hin.
  - destruct c as [ctx spans|ctx]; cbn [run_calls].
    + unfold mbind at 1, M_bind at 1, bind at 1. rewrite Hexport.
      split; [|done]. intros _. exists ctx, spans. apply list_elem_of_here.
    + destruct (Hshutdown ctx w) as [w1 Hw1].
      rewrite (bind_Ok _ _ _ _ _ Hw1).
      unfold mbind, M_bind, bind.
      destruct (run_calls e cs w1) as [rs w2|] eqn:Hcs.
      * split; [done|]. intros (ctx' & spans & Hin).
        apply elem_of_cons in Hin as [?|Hin]; [done|].
        assert (run_calls e cs w1 = Panic) as Hp by (apply IH; eauto).
        by rewrite Hcs in Hp.
      * split; [|done]. intros _.
        destruct (proj1 (IH w1) Hcs) as (ctx' & spans & Hin).
        exists ctx', spans. by apply list_elem_of_further.
Qed.

Lemma length_append (s t : string) :
  String.length (s +:+ t) = String.length s + String.length t.
Proof.
  induction s as [|a s IH]; [done|].
  change (S (String.length (s +:+ t)) = S (String.length s + String.length t)).
  by rewrite IH.
Qed.

Lemma append_inv_tail (s1 s2 t : string) : s1 +:+ t = s2 +:+ t -> s1 = s2.
Proof.
  revert s2. induction s1 as [|a s1 IH]; intros [|b s2] Heq.
  - done.
  - apply (f_equal String.length) in Heq.
    rewrite !length_append in Heq. simpl in Heq. lia.
  - apply (f_equal String.length) in Heq.
    rewrite !length_append in Heq. simpl in Heq. lia.
  - change (String a (s1 +:+ t) = String b (s2 +:+ t)) in Heq.
    injection Heq as -> Heq. f_equal. by apply IH.
Qed.

(** The size of a batch can be read back from the line that reports
    it. *)
Lemma export_line_inj (before after : string) (n m : nat) :
  before +:+ pretty n +:+ after = before +:+ pretty m +:+ after -> n = m.
Proof.
  intros Heq. apply (inj (String.app before)) in Heq.
  apply append_inv_tail in Heq. by apply (inj pretty).
Qed.

(** X8: the line an exporter writes for a batch tells the size of the
    batch. Two exports through the same exporter, from the same world,
    leave the same output exactly when the batches have the same
    number of spans. *)
Theorem X8_the_export_line_tells_the_batch_size (e : demo_SpanExporter)
    (ctx1 ctx2 : context_Context) (spans1 spans2 : list Span)
    (w w1 w2 : World) (r1 r2 : component.error) :
  ExportSpans e ctx1 spans1 w = Ok r1 w1 ->
  ExportSpans e ctx2 spans2 w = Ok r2 w2 ->
  (trace w1 = trace w2 <-> length spans1 = length spans2).
Proof.
  destruct e as [a|s|s]; simpl.
  - rewrite !spanExporterAdapter_ExportSpans_run. intros [= <- <-] [= <- <-]. simpl.
    split.
    + intros Heq. apply app_inv_head in Heq. injection Heq as Heq.
      by apply export_line_inj in Heq.
    + by intros ->.
  - unfold internal.simulatedExporter_ExportSpans.
    destruct (internal.config s) as [cfg|]; [|done].
    intros [= <- <-] [= <- <-]. simpl. split.
    + intros Heq. apply app_inv_head in Heq. injection Heq as Heq.
      by apply export_line_inj in Heq.
    + by intros ->.
  - unfold main.simulatedExporter_ExportSpans.
    destruct (main.config s) as [cfg|]; [|done].
    intros [= <- <-] [= <- <-]. simpl. split.
    + intros Heq. apply app_inv_head in Heq. injection Heq as Heq.
      by apply export_line_inj in Heq.
    + by intros ->.
Qed.

End exporters_more.

(** ** The demo's command line *)

Section cli_more.
Context {E : Externals}.

(** X9: the command runs an example only when it is asked for one it
    knows. With [-help], whatever [-example] says, and without [-help]
    for an example name other than "sim" and "real" (the names are
    case-sensitive), neither example is run: the outcome is the same
    whatever the examples would do. The libraries' state is untouched,
    only text is written, and the exit status is 0 for the help and 1
    for the unknown name. *)
Theorem X9_main_runs_no_example_for_help_or_unknown_names
    (sim real sim' real' : M (option Z)) (example : string) (help : bool)
    (w : World) :
  help = true \/ (example <> "sim" /\ example <> "real") ->
  cli.main sim real example help w = cli.main sim' real' example help w /\
  exists w' t,
    cli.main sim real example help w = Ok (Some (if help then 0 else 1)%Z) w' /\
    heap w' = heap w /\
    ext w' = ext w /\
    trace w' = trace w ++ t /\
    Forall (fun c => is_stdout c = true) t.
Proof.
  intros Hcase. unfold cli.main. destruct help.
  - split; [done|]. eexists _, _. split; [reflexivity|]. simpl.
    split; [done|]. split; [done|].
    split; [by rewrite <- !app_assoc|]. by repeat constructor.
  - destruct Hcase as [?|[Hsim Hreal]]; [done|].
    rewrite !decide_False by done.
    split; [done|]. eexists _, _. split; [reflexivity|]. simpl.
    split; [done|]. split; [done|].
    split; [by rewrite <- !app_assoc|]. by repeat constructor.
Qed.

End cli_more.

(** ** The further properties on the test doubles *)

Section examples_more.

(** X1 on a caller that holds settings behind the pointer [1]. *)
Lemma X1_witness :
  (forall p, Some 1%positive = Some p ->
             is_Some (heap (caller_world false) !! p)) /\
  exists fac err w',
    collex.NewFactory (E := test_env false) (picky_factory false) (Some 1%positive)
      (caller_world false) = Ok (fac, err) w' /\
    (is_Some fac <-> err = None) /\
    heap w' = heap (caller_world false).
Proof.
  assert (forall p, Some 1%positive = Some p ->
                    is_Some (heap (caller_world false) !! p)) as Hset.
  { intros p [= <-]. exists (caller_settings false). reflexivity. }
  split; [exact Hset|].
  destruct (X1_NewFactory_returns_a_factory_or_an_error (E := test_env false)
              (picky_factory false) (Some 1%positive) (caller_world false) Hset)
    as (fac & err & w' & Hrun & Hxor & Hheap & _).
  exists fac, err, w'. split; [exact Hrun|]. split; [exact Hxor|exact Hheap].
Defined.

(** X2 in the environment where the logger can be built. *)
Lemma X2_witness :
  (zap_NewProduction (Externals := test_env false) (ext (empty_world false))).1.2 = None /\
  exists r w' s,
    collex.newAdapter (E := test_env false) (picky_factory false) None 0 None
      (empty_world false) = Ok r w' /\
    settings_passed (added (empty_world false) w') = [s] /\
    component.BuildInfo_ s
    = component.mkBuildInfo "collex"
        "OpenTelemetry Collector to OpenTelemetry Go translator" "latest".
Proof.
  split; [reflexivity|].
  destruct (X2_nil_settings_reach_the_factory_as_the_defaults (E := test_env false)
              (picky_factory false) 0 None (empty_world false) eq_refl)
    as (r & w' & s & Hrun & Hset & Hbuild & _).
  exists r, w', s. split; [exact Hrun|]. split; [exact Hset|exact Hbuild].
Defined.

(** X3 on a factory that reports success without an exporter. *)
Lemma X3_witness :
  component.CreateTracesExporter (E := test_env false) careless_factory 0
    (caller_settings false) None 1
  = ((None, None), 2) /\
  exists exp w',
    collex.Factory_SpanExporter (E := test_env false)
      (Some (collex.mkFactory (caller_settings false) careless_factory)) 0 None
      (empty_world false) = Ok (exp, None) w' /\
    exp = Some (collex.mkSpanExporter None).
Proof.
  split; [reflexivity|].
  destruct (X3_SpanExporter_wraps_what_the_factory_built (E := test_env false)
              (collex.mkFactory (caller_settings false) careless_factory) 0 None
              (empty_world false) None None 2 eq_refl)
    as (exp & w' & Hrun & _ & Hwrap & _).
  exists exp, w'. split; [exact Hrun|]. apply Hwrap. reflexivity.
Defined.


(** X5 on a simulated exporter: an export, a shutdown, an export of an
    empty batch. *)
Lemma X5_witness :
  has_config (E := test_env false)
    (internal_simulated
       (internal.mkSimulatedExporter (Some (simulated_at "tcp://localhost:9000")))) /\
  exists w' t,
    run_calls (E := test_env false)
      (internal_simulated
         (internal.mkSimulatedExporter (Some (simulated_at "tcp://localhost:9000"))))
      [do_ExportSpans (E := test_env false) 0 example_batch;
       do_Shutdown (E := test_env false) 1;
       do_ExportSpans (E := test_env false) 2 []]
      (empty_world false)
    = Ok [None; None; None] w' /\
    ext w' = ext (empty_world false) /\
    trace w' = trace (empty_world false) ++ t /\
    Forall (fun c => is_stdout c = true) t.
Proof.
  assert (has_config (E := test_env false)
            (internal_simulated
               (internal.mkSimulatedExporter (Some (simulated_at "tcp://localhost:9000")))))
    as Hcfg by (simpl; discriminate).
  split; [exact Hcfg|].
  destruct (X5_demo_exporters_only_print (E := test_env false) _
              [do_ExportSpans (E := test_env false) 0 example_batch;
               do_Shutdown (E := test_env false) 1;
               do_ExportSpans (E := test_env false) 2 []]
              (empty_world false) Hcfg)
    as (w' & t & Hrun & _ & Hext & Htrace & Hout).
  exists w', t. split; [exact Hrun|]. split; [exact Hext|]. split; [exact Htrace|exact Hout].
Defined.

(** X7 on a simulated exporter without configuration: a shutdown, then
    an export of an empty batch. *)
Lemma X7_witness :
  ~ has_config (E := test_env false)
      (main_simulated (main.mkSimulatedExporter None)) /\
  (run_calls (E := test_env false)
     (main_simulated (main.mkSimulatedExporter None))
     [do_Shutdown (E := test_env false) 0; do_ExportSpans (E := test_env false) 1 []]
     (empty_world false) = Panic
   <-> exists ctx spans,
       do_ExportSpans (E := test_env false) ctx spans
       ∈ [do_Shutdown (E := test_env false) 0;
          do_ExportSpans (E := test_env false) 1 []]).
Proof.
  assert (~ has_config (E := test_env false)
              (main_simulated (main.mkSimulatedExporter None))) as Hnone
    by (simpl; intros Hne; by apply Hne).
  split; [exact Hnone|].
  apply (X7_without_config_a_session_panics_iff_it_exports (E := test_env false)
           (main_simulated (main.mkSimulatedExporter None))
           [do_Shutdown (E := test_env false) 0; do_ExportSpans (E := test_env false) 1 []]
           (empty_world false) Hnone).
Defined.

(** X8 on the adapter: a batch of three spans and an empty batch leave
    different lines. *)
Lemma X8_witness :
  ExportSpans (E := test_env false) (adapter_exporter (failing_adapter false)) 0
    example_batch (empty_world false)
  = Ok None
      (mkWorld (E := test_env false) ∅ 0
         [write_stdout ("Exporting 3 spans to ClickHouse" +:+ newline)]) /\
  ExportSpans (E := test_env false) (adapter_exporter (failing_adapter false)) 1
    [] (empty_world false)
  = Ok None
      (mkWorld (E := test_env false) ∅ 0
         [write_stdout ("Exporting 0 spans to ClickHouse" +:+ newline)]) /\
  ([write_stdout (E := test_env false) ("Exporting 3 spans to ClickHouse" +:+ newline)]
   = [write_stdout (E := test_env false) ("Exporting 0 spans to ClickHouse" +:+ newline)]
   <-> length example_batch = length (@nil Span)).
Proof.
  split; [reflexivity|]. split; [reflexivity|].
  apply (X8_the_export_line_tells_the_batch_size (E := test_env false)
           (adapter_exporter (failing_adapter false)) 0 1 example_batch []
           (empty_world false)
           (mkWorld (E := test_env false) ∅ 0
              [write_stdout ("Exporting 3 spans to ClickHouse" +:+ newline)])
           (mkWorld (E := test_env false) ∅ 0
              [write_stdout ("Exporting 0 spans to ClickHouse" +:+ newline)])
           None None); reflexivity.
Defined.

(** X9 on a misspelt example name: the examples, which would panic
    here, are not run, and the status is 1. *)
Lemma X9_witness :
  (false = true \/ ("Sim" <> "sim" /\ "Sim" <> "real")) /\
  exists w',
    cli.main (E := test_env false) unwanted_run unwanted_run "Sim" false
      (empty_world false) = Ok (Some 1%Z) w' /\
    ext w' = ext (empty_world false).
Proof.
  assert (false = true \/ ("Sim" <> "sim" /\ "Sim" <> "real")) as Hcase
    by (right; split; discriminate).
  split; [exact Hcase|].
  destruct (X9_main_runs_no_example_for_help_or_unknown_names (E := test_env false)
              unwanted_run unwanted_run unwanted_run unwanted_run "Sim" false
              (empty_world false) Hcase)
    as (_ & w' & t & Hrun & _ & Hext & _).
  exists w'. split; [exact Hrun|exact Hext].
Defined.

(** The help wins over the example name. *)
Example main_help_with_example :
  cli.main (E := test_env false) unwanted_run unwanted_run "real" true
    (empty_world false)
  = Ok (Some 0%Z)
      (mkWorld (E := test_env false) ∅ 0
         [write_stdout ("ClickHouse Exporter Demo for collex" +:+ newline);
          write_stdout (newline +:+ "Options:" +:+ newline);
          write_stdout ("  -example=sim  Run the simulation example (default)" +:+ newline);
          write_stdout ("  -example=real Run the real implementation example" +:+ newline);
          write_stdout ("  -help         Show this help message" +:+ newline)]).
Proof. reflexivity. Qed.

End examples_more.
